(** * fa_release_tool: module resolution, validation and bundling

    A shallow embedding of the pure core of [fa_release_tool.py]:
    manifest loading ([load_info_json]), manifest validation
    ([validate_mod]), destination resolution ([resolve_mod_dest]), the
    remote identity check ([repo_matches_expected_url]), module lookup
    ([find_mod]), asset discovery ([find_mod_assets_or_sources]) and the
    naming done by the bundle assembler ([build_release_zip]).

    Python values that come out of the YAML configuration or of a JSON
    manifest are modelled by the inductive [value]; a Python [dict] with
    string keys is a [gmap string value] (or an association list where the
    code only reads it); an exception is a constructor of [exn] and a
    function that may raise returns a [result].  Paths follow [posixpath]
    (the separator is "/") and strings are sequences of 8-bit characters.
    [str.lower], which depends on the Unicode text that a string encodes,
    is a parameter [lower] of the functions that call it; [PyStr.lower],
    which folds the letters A-Z, is its instance on ASCII text and is used
    to run the definitions. *)

From Stdlib Require Import Ascii String List Bool Arith Lia.
From stdpp Require Import base option gmap strings list.

(** ** Python values, exceptions and results *)

(** The values that [yaml.safe_load] and [json.load] produce, as far as
    the modelled functions tell them apart: [None], booleans, integers,
    strings, sequences and mappings (floats are left out). *)
#[warnings="-register-all"]
Inductive value : Type :=
| VNone
| VBool (b : bool)
| VInt (z : Z)
| VStr (s : string)
| VList (l : list value)
| VDict (kv : list (string * value)).

(** Exceptions raised by the modelled functions; the payload is the
    message. *)
Inductive exn : Type :=
| ValueError (msg : string)
| FileNotFoundError (msg : string)
| KeyError (key : string)
| TypeError
| AttributeError.

Inductive result (A : Type) : Type :=
| Ok (a : A)
| Raise (e : exn).
Arguments Ok {A} a.
Arguments Raise {A} e.

Global Instance result_ret : MRet result := fun A a => Ok a.
Global Instance result_bind : MBind result := fun A B k r =>
  match r with
  | Ok a => k a
  | Raise e => Raise e
  end.

(** [bool(v)]: the truth value Python gives to [v] in an [if]. *)
Definition truthy (v : value) : bool :=
  match v with
  | VNone => false
  | VBool b => b
  | VInt z => negb (Z.eqb z 0)
  | VStr s => negb (String.eqb s "")
  | VList l => match l with [] => false | _ => true end
  | VDict kv => match kv with [] => false | _ => true end
  end.

(** [os.fspath]: only a [str] is a path. *)
Definition fspath (v : value) : result string :=
  match v with
  | VStr s => Ok s
  | _ => Raise TypeError
  end.

(** [d.get(k)] on a dict: [None] when the key is missing. *)
Definition dict_get (d : gmap string value) (k : string) : value :=
  match d !! k with
  | Some v => v
  | None => VNone
  end.

(** [d.get(k, default)] *)
Definition dict_get_default (d : gmap string value) (k : string)
    (default : value) : value :=
  match d !! k with
  | Some v => v
  | None => default
  end.

(** ** Python string methods *)

Module PyStr.

(** [s.startswith(p)] *)
Fixpoint startswith (p s : string) : bool :=
  match p with
  | EmptyString => true
  | String a p' =>
      match s with
      | EmptyString => false
      | String b s' => Ascii.eqb a b && startswith p' s'
      end
  end.

(** [s.endswith(suf)] *)
Fixpoint endswith (suf s : string) : bool :=
  if String.eqb s suf then true
  else match s with
       | EmptyString => false
       | String _ s' => endswith suf s'
       end.

Definition lower_char (c : ascii) : ascii :=
  let n := nat_of_ascii c in
  if (65 <=? n)%nat && (n <=? 90)%nat then ascii_of_nat (n + 32) else c.

(** [s.lower()] for a string [s] of ASCII characters: the letters A-Z
    are folded, every other character is kept.  The functions of the tool
    take [str.lower] as a parameter; this instance runs them on ASCII
    text. *)
Fixpoint lower (s : string) : string :=
  match s with
  | EmptyString => EmptyString
  | String c s' => String (lower_char c) (lower s')
  end.

(** [s.rstrip(c)] for a single character [c] *)
Fixpoint rstrip (c : ascii) (s : string) : string :=
  match s with
  | EmptyString => EmptyString
  | String a s' =>
      match rstrip c s' with
      | EmptyString => if Ascii.eqb a c then EmptyString else String a EmptyString
      | r => String a r
      end
  end.

(** [s[:-n]] *)
Definition drop_last (n : nat) (s : string) : string :=
  String.substring 0 (String.length s - n) s.

(** [s.replace(a, b)] for single characters *)
Fixpoint replace (a b : ascii) (s : string) : string :=
  match s with
  | EmptyString => EmptyString
  | String c s' => String (if Ascii.eqb c a then b else c) (replace a b s')
  end.

(** [s.split(sep)] for a single character [sep]: never empty. *)
Fixpoint split (sep : ascii) (s : string) : list string :=
  match s with
  | EmptyString => [EmptyString]
  | String c s' =>
      if Ascii.eqb c sep then EmptyString :: split sep s'
      else match split sep s' with
           | [] => [String c EmptyString]
           | w :: ws => String c w :: ws
           end
  end.

(** [sep.join(l)] *)
Fixpoint join (sep : string) (l : list string) : string :=
  match l with
  | [] => EmptyString
  | [x] => x
  | x :: rest => x +:+ sep +:+ join sep rest
  end.

End PyStr.

(** ** [posixpath] *)

Module posixpath.

Definition sep : string := "/".

(** [os.path.isabs] *)
Definition isabs (s : string) : bool := PyStr.startswith sep s.

(** One step of the loop of [os.path.join]. *)
Definition join (path b : string) : string :=
  if PyStr.startswith sep b then b
  else if String.eqb path "" || PyStr.endswith sep path then path +:+ b
  else path +:+ sep +:+ b.

(** [os.path.join(a, b, c)] *)
Definition join3 (a b c : string) : string := join (join a b) c.

(** The loop body of [normpath] over the components. *)
Definition normpath_step (initial_slashes : nat) (new_comps : list string)
    (comp : string) : list string :=
  if String.eqb comp "" || String.eqb comp "." then new_comps
  else if negb (String.eqb comp "..")
          || (Nat.eqb initial_slashes 0 && match new_comps with [] => true | _ => false end)
          || match List.last (map Some new_comps) None with
             | Some l => String.eqb l ".."
             | None => false
             end
       then new_comps ++ [comp]
       else List.removelast new_comps.

(** [os.path.normpath] *)
Definition normpath (path : string) : string :=
  if String.eqb path "" then "."
  else
    let initial_slashes :=
      if PyStr.startswith sep path then
        if PyStr.startswith "//" path && negb (PyStr.startswith "///" path)
        then 2 else 1
      else 0 in
    let comps := PyStr.split "/" path in
    let new_comps := fold_left (normpath_step initial_slashes) comps [] in
    let path' := PyStr.join sep new_comps in
    let path' :=
      match initial_slashes with
      | 0 => path'
      | 1 => "/" +:+ path'
      | _ => "//" +:+ path'
      end in
    if String.eqb path' "" then "." else path'.

(** [os.path.abspath], with the current directory [cwd] of the
    process. *)
Definition abspath (cwd : string) (path : string) : string :=
  if isabs path then normpath path else normpath (join cwd path).

(** [os.path.basename]: what follows the last separator. *)
Fixpoint basename (p : string) : string :=
  match p with
  | EmptyString => EmptyString
  | String c p' =>
      if Ascii.eqb c "/" then basename p'
      else if existsb (Ascii.eqb "/") (list_ascii_of_string p') then basename p'
      else p
  end.

End posixpath.

(** ** Destination resolver *)

Section Resolver.

(** The value of [os.getcwd()]. *)
Variable cwd : string.

(** [os.path.abspath(v)] on a Python value. *)
Definition os_path_abspath (v : value) : result string :=
  p ← fspath v; Ok (posixpath.abspath cwd p).

(** The first block of [resolve_mod_dest]: the active base. *)
Definition resolve_base (md : gmap string value) (global_dest : value)
    : result string :=
  if truthy global_dest then os_path_abspath global_dest
  else match md !! "__global_default_dest__" with
       | Some v => os_path_abspath v
       | None => Ok cwd
       end.

Definition resolve_mod_dest (md : gmap string value) (global_dest : value)
    : result string :=
  let name := dict_get md "name" in
  let mod_dest := dict_get md "dest" in
  base ← resolve_base md global_dest;
  if truthy mod_dest then
    d ← fspath mod_dest;
    if posixpath.isabs d then
      Raise (ValueError ("Per-module dest should not be absolute: " +:+ d))
    else if PyStr.endswith "/" d || PyStr.endswith posixpath.sep d then
      n ← fspath name;
      Ok (posixpath.normpath (posixpath.join3 base d n))
    else
      Ok (posixpath.normpath (posixpath.join base d))
  else if truthy global_dest
          || bool_decide (is_Some (md !! "__global_default_dest__")) then
    n ← fspath name;
    Ok (posixpath.normpath (posixpath.join base n))
  else
    os_path_abspath name.

End Resolver.

Definition mk_mod (name : string) (dest : option string) : gmap string value :=
  match dest with
  | Some d => {[ "name" := VStr name; "dest" := VStr d ]}
  | None => {[ "name" := VStr name ]}
  end.

(** ** The file system as the manifest loader observes it *)

(** What [open] followed by [json.load] gives on a file: an exception
    (unreadable file, malformed document) with its text, or the decoded
    document.  A JSON object is a [VDict]; its association list has the
    keys of the Python [dict]. *)
Inductive json_outcome : Type :=
| JsonFails (e : string)
| JsonDoc (v : value).

Record filesystem : Type := {
  (** [os.path.isdir], [os.path.isfile] *)
  fs_isdir : string -> bool;
  fs_isfile : string -> bool;
  (** [json.load(open(path))] *)
  fs_json_load : string -> json_outcome;
  (** [zipfile.is_zipfile] *)
  fs_is_zipfile : string -> bool;
  (** [json.load(ZipFile(path).open(member))]; [None] is the [KeyError]
      of [ZipFile.open] on a member that the archive does not have. *)
  fs_zip_member : string -> string -> option json_outcome;
  (** [glob.glob(pattern)] *)
  fs_glob : string -> list string
}.

(** [os.path.splitext(p)[0]] for a [p] without separator: the part before
    the last dot, unless only dots precede it. *)
Fixpoint has_dot (s : string) : bool :=
  match s with
  | EmptyString => false
  | String c s' => Ascii.eqb c "." || has_dot s'
  end.

Fixpoint splitext_root_aux (seen_non_dot : bool) (p : string) : string :=
  match p with
  | EmptyString => EmptyString
  | String c p' =>
      if Ascii.eqb c "." then
        if has_dot p' then String c (splitext_root_aux seen_non_dot p')
        else if seen_non_dot then EmptyString else p
      else String c (splitext_root_aux true p')
  end.

Definition splitext_root (p : string) : string := splitext_root_aux false p.

Definition manifest : Type := list (string * value).

(** [k in d] and [d.get(k)] on a decoded JSON object. *)
Definition manifest_has (info : manifest) (k : string) : bool :=
  existsb (fun kv => String.eqb (fst kv) k) info.

Fixpoint manifest_get (info : manifest) (k : string) : value :=
  match info with
  | [] => VNone
  | (k', v) :: rest => if String.eqb k' k then v else manifest_get rest k
  end.

(** [v != s] negated, for a [str] [s]: only an equal [str] is equal. *)
Definition py_eq_str (v : value) (s : string) : bool :=
  match v with
  | VStr t => String.eqb t s
  | _ => false
  end.

Section Manifest.

Variable cwd : string.
Variable fs : filesystem.

(** The checks after the [if]/[elif] of [load_info_json]. *)
Definition check_required_keys (path : string) (info : value)
    : result (option manifest) :=
  match info with
  | VDict kv =>
      if negb (manifest_has kv "name") || negb (manifest_has kv "version") then
        Raise (ValueError ("info.json in " +:+ path
                           +:+ " missing required 'name' or 'version' key"))
      else Ok (Some kv)
  | _ => Raise (ValueError ("info.json in " +:+ path +:+ " is not a valid object"))
  end.

Definition load_info_json (path : string) : result (option manifest) :=
  if fs_isdir fs path then
    let info_path := posixpath.join path "info.json" in
    if negb (fs_isfile fs info_path) then Ok None
    else
      match fs_json_load fs info_path with
      | JsonFails e =>
          Raise (ValueError ("Failed to parse info.json in "
                             +:+ posixpath.abspath cwd path +:+ ": " +:+ e))
      | JsonDoc info => check_required_keys path info
      end
  else if fs_is_zipfile fs path then
    let zip_base := splitext_root (posixpath.basename path) in
    let info_json_path := zip_base +:+ "/info.json" in
    match fs_zip_member fs path info_json_path with
    | None => Ok None
    | Some (JsonFails e) =>
        Raise (ValueError ("Failed to parse info.json in " +:+ path +:+ ": " +:+ e))
    | Some (JsonDoc info) => check_required_keys path info
    end
  else
    Raise (ValueError ("Not a directory or zipfile: " +:+ path)).

(** [validate_mod(mod_name, mod_path, info)]; [info = None] is the
    default of the parameter. *)
Definition validate_mod (mod_name : string) (mod_path : string)
    (info : option manifest) : result bool :=
  match (match info with
         | None => load_info_json mod_path
         | Some i => Ok (Some i)
         end) with
  | Raise e => Ok false
  | Ok None =>
      Raise (FileNotFoundError ("Missing info.json in "
                                +:+ posixpath.abspath cwd mod_path))
  | Ok (Some i) =>
      if negb (py_eq_str (manifest_get i "name") mod_name) then Ok false
      else Ok true
  end.

(** ** Asset discovery *)

(** The body of the [try] in the loop over the candidates: [true] when
    the candidate is appended to [valid_zips]; an exception skips it. *)
Definition zip_is_valid (modname : string) (zipfile_path : string) : bool :=
  match load_info_json zipfile_path with
  | Raise e => false
  | Ok info =>
      match validate_mod modname zipfile_path info with
      | Ok b => b
      | Raise e => false
      end
  end.

(** The body of the loop over the modules, for a module named
    [modname]: the path stored in [results]. *)
Definition find_mod_asset (source_path : string) (modname : string)
    (bundle_zip : value) : result string :=
  if negb (truthy bundle_zip) then
    let mod_dir := posixpath.join source_path modname in
    if negb (fs_isdir fs mod_dir) then
      Raise (FileNotFoundError ("Expected source dir for '" +:+ modname
                                +:+ "' not found: " +:+ mod_dir))
    else
      ok ← validate_mod modname mod_dir None;
      if negb ok then
        Raise (ValueError ("Directory for mod '" +:+ modname
               +:+ "' does not contain a valid info.json or name mismatch"))
      else Ok mod_dir
  else
    let pattern := posixpath.join source_path (modname +:+ "_*.zip") in
    let zips := fs_glob fs pattern in
    let valid_zips := List.filter (zip_is_valid modname) zips in
    match valid_zips with
    | [] =>
        Raise (FileNotFoundError ("No valid zip found for mod '" +:+ modname
                                  +:+ "' in " +:+ source_path))
    | [z] => Ok z
    | _ =>
        let pretty := PyStr.join ", " (map posixpath.basename valid_zips) in
        Raise (ValueError ("Multiple valid zips found for mod '" +:+ modname
                           +:+ "': " +:+ pretty))
    end.

(** The loop of [find_mod_assets_or_sources], with [results] as
    accumulator.  The model covers modules whose [name] is a [str]: for
    another value [os.path.join] raises [TypeError] in directory mode,
    and the archive mode, which formats the value into the pattern, is not
    followed. *)
Fixpoint find_mod_assets_loop (modules : list (gmap string value))
    (source_path : string) (results : gmap string string)
    : result (gmap string string) :=
  match modules with
  | [] => Ok results
  | md :: rest =>
      modname ← fspath (dict_get md "name");
      let bundle_zip := dict_get_default md "bundle_zip" (VBool true) in
      p ← find_mod_asset source_path modname bundle_zip;
      find_mod_assets_loop rest source_path (<[modname := p]> results)
  end.

Definition find_mod_assets_or_sources (modules : list (gmap string value))
    (source_path : string) : result (gmap string string) :=
  find_mod_assets_loop modules source_path ∅.

End Manifest.

(** ** Remote identity *)

Record remote : Type := { urls : list string }.
Record repo : Type := { remotes : list remote }.

(** The inner [normalize] of [repo_matches_expected_url]; [lower] is
    [str.lower]. *)
Definition normalize (lower : string -> string) (url : string) : string :=
  let url := PyStr.rstrip "/" (lower url) in
  if PyStr.endswith ".git" url then PyStr.drop_last 4 url else url.

Definition repo_matches_expected_url (lower : string -> string) (r : repo)
    (expected_url : string) : bool :=
  let expected_norm := normalize lower expected_url in
  existsb (fun rm =>
             existsb (fun remote_url =>
                        String.eqb (normalize lower remote_url) expected_norm)
                     (urls rm))
          (remotes r).

(** ** Module lookup *)

(** [find_mod(modules, name)]; [lower] is [str.lower]. *)
Fixpoint find_mod (lower : string -> string)
    (modules : list (gmap string value)) (name : string)
    : result (option (gmap string value)) :=
  match modules with
  | [] => Ok None
  | md :: rest =>
      match dict_get_default md "name" (VStr "") with
      | VStr s =>
          if String.eqb (lower s) (lower name) then Ok (Some md)
          else find_mod lower rest name
      | _ => Raise AttributeError
      end
  end.

(** ** Bundle assembler *)

(** The calls of [build_release_zip] that touch the disk, each with the
    outcome it has in the run under study: [Ok tt] when the call returns,
    [Raise e] when it raises. *)
Record shutil_world : Type := {
  (** The directory that [tempfile.TemporaryDirectory] makes. *)
  sw_tmpdir : string;
  sw_isdir : string -> bool;
  sw_makedirs : string -> result unit;
  sw_copytree : string -> string -> result unit;
  sw_copy2 : string -> string -> result unit;
  (** Writing the members of the zip file: archive file, [root_dir],
      [base_dir]. *)
  sw_write_zip : string -> string -> string -> result unit
}.

(** [d[k]] on a module record. *)
Definition dict_item (d : gmap string value) (k : string) : result value :=
  match d !! k with
  | Some v => Ok v
  | None => Raise (KeyError k)
  end.

(** [mod_assets[name]]: the keys of [mod_assets] are [str]; a list or a
    dict is not hashable. *)
Definition assets_item (mod_assets : gmap string string) (name : value)
    : result string :=
  match name with
  | VStr s =>
      match mod_assets !! s with
      | Some p => Ok p
      | None => Raise (KeyError s)
      end
  | VList _ | VDict _ => Raise TypeError
  | _ => Raise (KeyError "")
  end.

(** [shutil.make_archive(base_name, "zip", root_dir, base_dir)] with a
    [root_dir]: the archive is written to [base_name + ".zip"], and the
    absolute path of this file is returned; [cwd] is [os.getcwd()]. *)
Definition make_archive (cwd : string) (w : shutil_world)
    (base_name root_dir base_dir : string) : result string :=
  let zip_filename := base_name +:+ ".zip" in
  _ ← sw_write_zip w zip_filename root_dir base_dir;
  Ok (posixpath.abspath cwd zip_filename).

(** The loop that copies each module asset into [mods_dir]. *)
Fixpoint copy_mod_assets (w : shutil_world) (mods_dir : string)
    (mod_assets : gmap string string) (modules : list (gmap string value))
    : result unit :=
  match modules with
  | [] => Ok tt
  | md :: rest =>
      name ← dict_item md "name";
      modpath ← assets_item mod_assets name;
      _ ← (if sw_isdir w modpath then
             n ← fspath name;
             let dest_dir := posixpath.join mods_dir n in
             sw_copytree w modpath dest_dir
           else sw_copy2 w modpath mods_dir);
      copy_mod_assets w mods_dir mod_assets rest
  end.

Definition build_release_zip (cwd : string) (w : shutil_world)
    (modules : list (gmap string value)) (mod_assets : gmap string string)
    (jkm_path launcher_path modlist_path default_dest : string)
    (bundle_name bundle_version : string) : result string :=
  let content_folder := bundle_name +:+ "_content" in
  let bundle_folder :=
    bundle_name +:+ "_" +:+ PyStr.replace "." "_" bundle_version in
  let zip_name := bundle_name +:+ "_" +:+ bundle_version +:+ ".zip" in
  let mods_folder := "mods" in
  let tmpdir := sw_tmpdir w in
  let mods_dir :=
    posixpath.join (posixpath.join3 tmpdir bundle_folder content_folder)
                   mods_folder in
  _ ← sw_makedirs w mods_dir;
  _ ← copy_mod_assets w mods_dir mod_assets modules;
  _ ← sw_copy2 w modlist_path mods_dir;
  let content_dir := posixpath.join3 tmpdir bundle_folder content_folder in
  _ ← sw_copy2 w jkm_path content_dir;
  _ ← sw_copy2 w launcher_path content_dir;
  let zip_base := posixpath.join default_dest bundle_folder in
  archive_path ← make_archive cwd w zip_base tmpdir bundle_folder;
  Ok archive_path.

(** The bundle name that [cmd_bundle] passes, for the main module
    "FactorioAccess". *)
Definition cmd_bundle_name (is_beta : bool) : string :=
  "FactorioAccess" +:+ "_" +:+ (if is_beta then "beta" else "").

(** A run in which every disk operation succeeds. *)
Definition quiet_world (tmp : string) (dirs : list string) : shutil_world :=
  {| sw_tmpdir := tmp;
     sw_isdir := fun p => existsb (String.eqb p) dirs;
     sw_makedirs := fun _ => Ok tt;
     sw_copytree := fun _ _ => Ok tt;
     sw_copy2 := fun _ _ => Ok tt;
     sw_write_zip := fun _ _ _ => Ok tt |}.

(** ** A small search root, used to run the definitions

    [/src/A] is a checked-out module with a manifest, [/src/empty] a
    directory without one; three archives are named for module [B], one of
    them with a manifest that names another module, and [/src/C_1.0.zip]
    has no manifest at the expected member. *)
Definition manifest_of (name version : string) : value :=
  VDict [("name", VStr name); ("version", VStr version)].

Definition sample_fs : filesystem :=
  {| fs_isdir := fun p => existsb (String.eqb p) ["/src"; "/src/A"; "/src/empty"];
     fs_isfile := fun p => existsb (String.eqb p) ["/src/A/info.json"; "/src/bad/info.json"];
     fs_json_load := fun p =>
       if String.eqb p "/src/A/info.json" then JsonDoc (manifest_of "A" "0.1.0")
       else JsonFails "Expecting value: line 1 column 1 (char 0)";
     fs_is_zipfile := fun p =>
       existsb (String.eqb p)
         ["/src/B_1.2.0.zip"; "/src/B_1.3.0.zip"; "/src/B_other.zip";
          "/src/C_1.0.zip"; "/src/D_1.0.zip"; "/src/E_1.0.zip"];
     fs_zip_member := fun p m =>
       if String.eqb p "/src/B_1.2.0.zip" && String.eqb m "B_1.2.0/info.json"
       then Some (JsonDoc (manifest_of "B" "1.2.0"))
       else if String.eqb p "/src/B_1.3.0.zip" && String.eqb m "B_1.3.0/info.json"
       then Some (JsonDoc (manifest_of "B" "1.3.0"))
       else if String.eqb p "/src/B_other.zip" && String.eqb m "B_other/info.json"
       then Some (JsonDoc (manifest_of "Other" "1.0.0"))
       else if String.eqb p "/src/D_1.0.zip" && String.eqb m "D_1.0/info.json"
       then Some (JsonDoc (VDict [("name", VStr "D")]))
       else if String.eqb p "/src/E_1.0.zip" && String.eqb m "E_1.0/info.json"
       then Some (JsonDoc (VList []))
       else None;
     fs_glob := fun pat =>
       if String.eqb pat "/src/B_*.zip"
       then ["/src/B_1.2.0.zip"; "/src/B_1.3.0.zip"; "/src/B_other.zip"]
       else if String.eqb pat "/src/C_*.zip" then ["/src/C_1.0.zip"]
       else if String.eqb pat "/src/D_*.zip" then ["/src/D_1.0.zip"]
       else [] |}.


(** ** Vocabulary of the statements *)

(** The content of a manifest that cannot be accepted: malformed, not an
    object, or an object without [name] or without [version]. *)
Definition content_rejected (o : json_outcome) : Prop :=
  match o with
  | JsonFails _ => True
  | JsonDoc (VDict kv) =>
      manifest_has kv "name" = false \/ manifest_has kv "version" = false
  | JsonDoc _ => True
  end.

(** The member of an archive at which its manifest is looked up. *)
Definition manifest_member (path : string) : string :=
  splitext_root (posixpath.basename path) +:+ "/info.json".

(** What [validate_mod] works on: the manifest it is given, or the outcome
    of loading it. *)
Definition manifest_outcome (cwd : string) (fs : filesystem)
    (mod_path : string) (info : option manifest) : result (option manifest) :=
  match info with
  | None => load_info_json cwd fs mod_path
  | Some i => Ok (Some i)
  end.

(** C2, as the specification words it: validation always returns a
    boolean, [True] exactly for a present manifest with the expected
    name. *)
Definition validate_never_raises : Prop :=
  forall cwd fs mod_name mod_path info,
    exists b, validate_mod cwd fs mod_name mod_path info = Ok b
      /\ (b = true <->
          exists i, manifest_outcome cwd fs mod_path info = Ok (Some i)
                    /\ manifest_get i "name" = VStr mod_name).

(** The candidates for an archive-mode module and those that survive the
    filter of [find_mod_assets_or_sources]. *)
Definition candidates (fs : filesystem) (source_path modname : string)
    : list string :=
  fs_glob fs (posixpath.join source_path (modname +:+ "_*.zip")).

Definition survivors (cwd : string) (fs : filesystem)
    (source_path modname : string) : list string :=
  List.filter (zip_is_valid cwd fs modname) (candidates fs source_path modname).

(** [bundle_zip] is true or missing. *)
Definition archive_mode (md : gmap string value) : Prop :=
  truthy (dict_get_default md "bundle_zip" (VBool true)) = true.

(** The declared name of a module, as [find_mod] reads it, equals the
    query up to the case of letters. *)
Definition name_matches (lower : string -> string) (md : gmap string value)
    (name : string) : Prop :=
  exists s, dict_get_default md "name" (VStr "") = VStr s
            /\ lower s = lower name.

(** The [name] of the module is a [str], or missing. *)
Definition has_str_name (md : gmap string value) : Prop :=
  exists s, dict_get_default md "name" (VStr "") = VStr s.

(** [s] has a path separator. *)
Definition has_slash (s : string) : bool :=
  existsb (Ascii.eqb "/") (list_ascii_of_string s).

(** A plain path component: not empty, not "." or "..", no separator. *)
Definition plain_component (n : string) : Prop :=
  n <> "" /\ n <> "." /\ n <> ".." /\ has_slash n = false.

(** Every disk operation of the run succeeds. *)
Definition all_succeed (w : shutil_world) : Prop :=
  (forall p, sw_makedirs w p = Ok tt)
  /\ (forall a b, sw_copytree w a b = Ok tt)
  /\ (forall a b, sw_copy2 w a b = Ok tt)
  /\ (forall a b c, sw_write_zip w a b c = Ok tt).

(** The module has a [str] name and an asset recorded under it. *)
Definition has_asset (mod_assets : gmap string string) (md : gmap string value)
    : Prop :=
  exists n p, md !! "name" = Some (VStr n) /\ mod_assets !! n = Some p.


(** The three ways in which the active base of a module is established:
    the global override of the invocation, the default recorded on the
    module, or the current directory. *)
Inductive base_config (cwd : string) (md : gmap string value) (gd : value)
    : string -> Prop :=
| base_global g :
    gd = VStr g -> g <> "" ->
    base_config cwd md gd (posixpath.abspath cwd g)
| base_default b :
    truthy gd = false ->
    md !! "__global_default_dest__" = Some (VStr b) ->
    base_config cwd md gd (posixpath.abspath cwd b)
| base_cwd :
    truthy gd = false ->
    md !! "__global_default_dest__" = None ->
    base_config cwd md gd cwd.

(** [dest] ends in a separator, as the resolver tests it. *)
Definition ends_in_sep (d : string) : bool :=
  PyStr.endswith "/" d || PyStr.endswith posixpath.sep d.

(** C7, as the specification words it: every relative override, the empty
    string included, is joined to the base. *)
Definition override_always_joined : Prop :=
  forall cwd md gd d n base,
    dict_get md "dest" = VStr d ->
    dict_get md "name" = VStr n ->
    posixpath.isabs d = false ->
    base_config cwd md gd base ->
    resolve_mod_dest cwd md gd
    = Ok (posixpath.normpath
            (if ends_in_sep d then posixpath.join3 base d n
             else posixpath.join base d)).

(** ** Further functions of the tool *)

(** [len(l) op n] on lists, as booleans. *)
Definition len_lt {A : Type} (l : list A) (n : nat) : bool := Nat.ltb (length l) n.
Definition len_gt {A : Type} (l : list A) (n : nat) : bool := Nat.ltb n (length l).

(** [l[-1]] and [l[-2]], for a list long enough. *)
Definition item_last (l : list string) : string := List.last l "".
Definition item_before_last (l : list string) : string :=
  List.last (List.removelast l) "".

Section Version.

Variable cwd : string.
Variable fs : filesystem.

(** [get_mod_version_or_raise(mod_path, info)]; [info = None] is the
    default of the parameter.  The result is [info["version"]]. *)
Definition get_mod_version_or_raise (mod_path : string) (info : option manifest)
    : result value :=
  let abs_mod_path := posixpath.abspath cwd mod_path in
  info ← match info with
         | None => load_info_json cwd fs mod_path
         | Some i => Ok (Some i)
         end;
  match info with
  | None => Raise (FileNotFoundError ("Missing info.json in " +:+ abs_mod_path))
  | Some i =>
      if negb (manifest_has i "version") then
        Raise (KeyError ("info.json missing required 'version' key in "
                         +:+ abs_mod_path))
      else Ok (manifest_get i "version")
  end.

End Version.

(** What a command function does: it returns, raises, or leaves the
    process through [sys.exit(code)]. *)
Inductive outcome (A : Type) : Type :=
| Returns (a : A)
| Raises (e : exn)
| Exits (code : Z).
Arguments Returns {A} a.
Arguments Raises {A} e.
Arguments Exits {A} code.

(** [get_mods_to_process(modules, modname)]; [modname] is [None] or a
    [str].  The test [not m] holds for [None] and for an empty dict. *)
Definition get_mods_to_process (lower : string -> string)
    (modules : list (gmap string value))
    (modname : option string) : outcome (list (gmap string value)) :=
  match modname with
  | Some n =>
      if negb (String.eqb n "") then
        match find_mod lower modules n with
        | Raise e => Raises e
        | Ok None => Exits 1
        | Ok (Some m) => if Nat.eqb (size m) 0 then Exits 1 else Returns [m]
        end
      else Returns modules
  | None => Returns modules
  end.

(** [get_github_repo(repo_url, token)]; [gh_get_repo] is the call
    [gh.get_repo] of the client that [token] selects. *)
Definition get_github_repo {R : Type} (gh_get_repo : string -> result R)
    (repo_url : string) : result R :=
  let url := PyStr.rstrip "/" repo_url in
  let url := if PyStr.endswith ".git" url then PyStr.drop_last 4 url else url in
  let parts := PyStr.split "/" url in
  if len_lt parts 2 then
    Raise (ValueError ("Invalid GitHub repo URL: " +:+ repo_url))
  else
    let owner := item_before_last parts in
    let repo := item_last parts in
    gh_get_repo (owner +:+ "/" +:+ repo).

(** The release tag that [cmd_publish] works with, from [args.zip] and
    [args.tag] ([None] or a [str]). *)
Definition cmd_publish_tag (zip_path : string) (tag : value) : value :=
  let base := posixpath.basename zip_path in
  if negb (truthy tag) then
    let parts := PyStr.split "_" (splitext_root base) in
    let tag := if len_gt parts 1 then VStr (item_last parts) else tag in
    if negb (truthy tag) then VStr "vlatest" else tag
  else tag.

(** The search for the main module in [cmd_bundle] (and [cmd_upload]):
    the first module whose [name] is "FactorioAccess". *)
Fixpoint find_main_mod (modules : list (gmap string value))
    : option (gmap string value) :=
  match modules with
  | [] => None
  | md :: rest =>
      if py_eq_str (dict_get md "name") "FactorioAccess" then Some md
      else find_main_mod rest
  end.

(** The module list that [cmd_bundle] writes to [mod-list.json]: the
    entries [{"name": n, "enabled": e}] as pairs, in order. *)
Fixpoint modlist_append (modlist : list (value * bool))
    (modules : list (gmap string value)) : result (list (value * bool)) :=
  match modules with
  | [] => Ok modlist
  | md :: rest =>
      n ← dict_item md "name";
      modlist_append (modlist ++ [(n, true)]) rest
  end.

Definition cmd_bundle_modlist (modules : list (gmap string value))
    : result (list (value * bool)) :=
  modlist_append [(VStr "base", true)] modules.

(** [c] occurs in [s]. *)
Definition has_char (c : ascii) (s : string) : bool :=
  existsb (Ascii.eqb c) (list_ascii_of_string s).

(** [s] has a character other than the dot. *)
Fixpoint has_non_dot (s : string) : bool :=
  match s with
  | EmptyString => false
  | String c s' => negb (Ascii.eqb c ".") || has_non_dot s'
  end.

(** The start of [cmd_bundle]: the assets are looked up under
    [default_dest]; a [ValueError] ends the process with code 1, any other
    exception is not caught. *)
Definition cmd_bundle_assets (cwd : string) (fs : filesystem)
    (modules : list (gmap string value)) (default_dest : string)
    : outcome (gmap string string) :=
  match find_mod_assets_or_sources cwd fs modules default_dest with
  | Ok mod_assets => Returns mod_assets
  | Raise (ValueError e) => Exits 1
  | Raise e => Raises e
  end.

(** The components that [normpath] keeps: a run of ".." (only in a
    relative path, [k = 0]) followed by plain components. *)
Definition normal_comps (k : nat) (l : list string) : Prop :=
  exists d r, l = repeat ".." d ++ r
              /\ Forall plain_component r
              /\ (k <> 0 -> d = 0).

(** The string that [normpath] builds from the count [k] of initial
    slashes and the components it kept. *)
Definition normpath_result (k : nat) (l : list string) : string :=
  let path := PyStr.join "/" l in
  let path := match k with
              | 0 => path
              | 1 => "/" +:+ path
              | _ => "//" +:+ path
              end in
  if String.eqb path "" then "." else path.




(** [s] consists of slashes only. *)
Fixpoint all_slashes (s : string) : bool :=
  match s with
  | EmptyString => true
  | String c s' => Ascii.eqb c "/" && all_slashes s'
  end.

(** The normal form of a URL in the words of the specification: [n] is
    the URL in lower case, without its trailing slashes and then without a
    trailing ".git".  [body] is the lowered URL up to its trailing
    slashes. *)
Definition normal_form_of (lower : string -> string) (url n : string) : Prop :=
  exists body tail,
    lower url = body +:+ tail
    /\ all_slashes tail = true
    /\ PyStr.endswith "/" body = false
    /\ (body = n +:+ ".git"
        \/ (PyStr.endswith ".git" body = false /\ n = body)).

(* ================================================================= *)
(** * Properties *)

(** ** Sanity checks of the path functions *)

Example normpath_ex1 : posixpath.normpath "/a/b/../../../etc//x/." = "/etc/x".
Proof. reflexivity. Qed.
Example normpath_ex2 : posixpath.normpath "a/../../b" = "../b".
Proof. reflexivity. Qed.
Example normpath_ex3 : posixpath.normpath "//a/./b/" = "//a/b".
Proof. reflexivity. Qed.
Example basename_ex : posixpath.basename "/x/y/FA_1.2.zip" = "FA_1.2.zip".
Proof. reflexivity. Qed.
Example join_ex : posixpath.join3 "/base" "sub/" "mod" = "/base/sub/mod".
Proof. reflexivity. Qed.
Example resolve_ex1 :
  resolve_mod_dest "/work" (mk_mod "FactorioAccess" None) VNone
  = Ok "/work/FactorioAccess".
Proof. vm_compute. reflexivity. Qed.
Example resolve_ex2 :
  resolve_mod_dest "/work" (mk_mod "fa" (Some "mods/")) (VStr "out")
  = Ok "/work/out/mods/fa".
Proof. vm_compute. reflexivity. Qed.
Example resolve_ex3 :
  resolve_mod_dest "/work" (mk_mod "fa" (Some "mods")) (VStr "/out")
  = Ok "/out/mods".
Proof. vm_compute. reflexivity. Qed.
Example resolve_ex4 :
  resolve_mod_dest "/work" (mk_mod "fa" (Some "/etc")) (VStr "/out")
  = Raise (ValueError "Per-module dest should not be absolute: /etc").
Proof. vm_compute. reflexivity. Qed.
Example resolve_ex5 :
  resolve_mod_dest "/home/u/work" (mk_mod "fa" (Some "../../etc")) VNone
  = Ok "/home/etc".
Proof. vm_compute. reflexivity. Qed.
Example resolve_ex6 :
  resolve_mod_dest "/work" (mk_mod "fa" (Some "")) (VStr "/b") = Ok "/b/fa".
Proof. vm_compute. reflexivity. Qed.
Example build_ex1 :
  build_release_zip "/work" (quiet_world "/tmp/t" ["/out/A"])
    [mk_mod "A" None; mk_mod "B" None]
    {[ "A" := "/out/A"; "B" := "/out/B_1.2.0.zip" ]}
    "/out/Factorio.jkm" "/out/launcher.exe" "/out/mod-list.json" "/out"
    (cmd_bundle_name true) "1.2.0"
  = Ok "/out/FactorioAccess_beta_1_2_0.zip".
Proof. vm_compute. reflexivity. Qed.

(** ** Basic facts about strings and the result monad *)

Lemma app_cons (c : ascii) (s t : string) :
  String c s +:+ t = String c (s +:+ t).
Proof. reflexivity. Qed.

Lemma app_empty_l (s : string) : "" +:+ s = s.
Proof. reflexivity. Qed.

Lemma app_empty_r (s : string) : s +:+ "" = s.
Proof. induction s as [|c s IH]; [reflexivity|]. rewrite app_cons, IH. reflexivity. Qed.

Lemma app_assoc_str (s t u : string) : (s +:+ t) +:+ u = s +:+ (t +:+ u).
Proof.
  induction s as [|c s IH]; [reflexivity|].
  rewrite !app_cons, IH. reflexivity.
Qed.

Lemma truthy_str (s : string) : truthy (VStr s) = true <-> s <> "".
Proof.
  simpl. destruct (String.eqb_spec s ""); simpl; split; intros; congruence.
Qed.

Lemma isabs_nonempty (d : string) : posixpath.isabs d = true -> d <> "".
Proof. intros H ->. discriminate H. Qed.

Lemma join_absolute (a b : string) :
  posixpath.isabs b = true -> posixpath.join a b = b.
Proof. unfold posixpath.isabs, posixpath.join. intros ->. reflexivity. Qed.

(** [os.path.abspath(p)] is the normal form of [cwd] joined with [p]. *)
Lemma abspath_join (cwd p : string) :
  posixpath.abspath cwd p = posixpath.normpath (posixpath.join cwd p).
Proof.
  unfold posixpath.abspath. destruct (posixpath.isabs p) eqn:E; [|reflexivity].
  rewrite join_absolute by exact E. reflexivity.
Qed.

Lemma app_eq_empty (s t : string) : s +:+ t = "" -> t = "".
Proof. destruct s; [rewrite app_empty_l; auto | rewrite app_cons; discriminate]. Qed.

Lemma has_slash_app (s t : string) :
  has_slash (s +:+ t) = has_slash s || has_slash t.
Proof.
  unfold has_slash. induction s as [|c s IH]; [reflexivity|].
  rewrite app_cons. cbn [list_ascii_of_string existsb]. rewrite IH.
  rewrite orb_assoc. reflexivity.
Qed.

Lemma basename_no_slash (x : string) : has_slash x = false -> posixpath.basename x = x.
Proof.
  destruct x as [|c x]; [reflexivity|].
  unfold has_slash. cbn [list_ascii_of_string existsb posixpath.basename].
  intros H. apply orb_false_iff in H as [Hc Hx].
  rewrite Hx. destruct (Ascii.eqb_spec c "/") as [->|_]; [|reflexivity].
  rewrite Ascii.eqb_refl in Hc. discriminate Hc.
Qed.

Lemma basename_after_slash (d x : string) :
  has_slash x = false -> posixpath.basename (d +:+ "/" +:+ x) = x.
Proof.
  intros Hx. induction d as [|c d IH].
  - rewrite app_empty_l. change ("/" +:+ x) with (String "/" x).
    cbn [posixpath.basename]. rewrite Ascii.eqb_refl.
    apply basename_no_slash, Hx.
  - rewrite app_cons. cbn [posixpath.basename].
    fold (has_slash (d +:+ "/" +:+ x)).
    rewrite !has_slash_app. cbn [orb].
    change (has_slash "/") with true. rewrite orb_true_r, IH.
    destruct (Ascii.eqb c "/"); reflexivity.
Qed.

Lemma endswith_char_split (c : ascii) (s : string) :
  PyStr.endswith (String c "") s = true -> exists s', s = s' +:+ String c "".
Proof.
  induction s as [|a s IH]; [discriminate|].
  cbn [PyStr.endswith].
  destruct (String.eqb_spec (String a s) (String c "")) as [E|E].
  - intros _. exists "". rewrite app_empty_l. exact E.
  - intros H. destruct (IH H) as (s' & ->). exists (String a s'). reflexivity.
Qed.

(** ** The last component of a normalized path *)

Lemma split_nonempty (c : ascii) (s : string) : PyStr.split c s <> [].
Proof.
  destruct s as [|a s]; cbn [PyStr.split]; [discriminate|].
  destruct (Ascii.eqb a c); [discriminate|].
  destruct (PyStr.split c s); discriminate.
Qed.

Lemma split_no_slash (n : string) :
  has_slash n = false -> PyStr.split "/" n = [n].
Proof.
  unfold has_slash. induction n as [|a n IH]; [reflexivity|].
  cbn [list_ascii_of_string existsb PyStr.split]. intros H.
  apply orb_false_iff in H as [Ha Hn].
  destruct (Ascii.eqb_spec a "/") as [->|_].
  - rewrite Ascii.eqb_refl in Ha. discriminate Ha.
  - rewrite (IH Hn). reflexivity.
Qed.

Lemma split_snoc (q n : string) :
  has_slash n = false ->
  PyStr.split "/" (q +:+ "/" +:+ n) = PyStr.split "/" q ++ [n].
Proof.
  intros Hn. induction q as [|a q IH].
  - rewrite app_empty_l. change ("/" +:+ n) with (String "/" n).
    cbn [PyStr.split]. rewrite Ascii.eqb_refl, (split_no_slash n Hn). reflexivity.
  - rewrite app_cons. cbn [PyStr.split]. rewrite IH.
    destruct (Ascii.eqb a "/"); [reflexivity|].
    pose proof (split_nonempty "/" q) as Hq.
    destruct (PyStr.split "/" q) as [|w ws]; [contradiction|reflexivity].
Qed.

Lemma normpath_step_plain (k : nat) (acc : list string) (n : string) :
  plain_component n -> posixpath.normpath_step k acc n = acc ++ [n].
Proof.
  intros (H0 & H1 & H2 & _). unfold posixpath.normpath_step.
  apply String.eqb_neq in H0, H1, H2. rewrite H0, H1, H2. reflexivity.
Qed.

Lemma join_snoc (sep n : string) (acc : list string) :
  PyStr.join sep (acc ++ [n])
  = match acc with
    | [] => n
    | _ => PyStr.join sep acc +:+ sep +:+ n
    end.
Proof.
  induction acc as [|x acc IH]; [reflexivity|].
  destruct acc as [|y acc]; [reflexivity|].
  change (PyStr.join sep ((x :: y :: acc) ++ [n]))
    with (x +:+ sep +:+ PyStr.join sep ((y :: acc) ++ [n])).
  rewrite IH.
  change (PyStr.join sep (x :: y :: acc))
    with (x +:+ sep +:+ PyStr.join sep (y :: acc)).
  rewrite !app_assoc_str. reflexivity.
Qed.

Lemma app_nonempty_r (s t : string) : t <> "" -> s +:+ t <> "".
Proof. intros Ht H. apply app_eq_empty in H. contradiction. Qed.

(** Normalizing [q/n] for a plain component [n] leaves [n] as the last
    component. *)
Lemma basename_normpath_snoc (q n : string) :
  plain_component n ->
  posixpath.basename (posixpath.normpath (q +:+ "/" +:+ n)) = n.
Proof.
  intros Hp. pose proof Hp as (Hne & _ & _ & Hs).
  unfold posixpath.normpath.
  assert (Hq : String.eqb (q +:+ "/" +:+ n) "" = false).
  { apply String.eqb_neq, app_nonempty_r. discriminate. }
  rewrite Hq.
  generalize (if PyStr.startswith posixpath.sep (q +:+ "/" +:+ n)
              then if PyStr.startswith "//" (q +:+ "/" +:+ n)
                      && negb (PyStr.startswith "///" (q +:+ "/" +:+ n))
                   then 2 else 1
              else 0).
  intros k. rewrite (split_snoc q n Hs), fold_left_app. cbn [fold_left].
  rewrite (normpath_step_plain _ _ _ Hp), join_snoc.
  set (acc := fold_left (posixpath.normpath_step k) (PyStr.split "/" q) []).
  assert (Hform : forall s, (s = n \/ exists d, s = d +:+ "/" +:+ n) ->
            posixpath.basename (if String.eqb s "" then "." else s) = n).
  { intros s [->|(d & ->)].
    - apply String.eqb_neq in Hne. rewrite Hne. apply basename_no_slash, Hs.
    - assert (E : String.eqb (d +:+ "/" +:+ n) "" = false).
      { apply String.eqb_neq, app_nonempty_r. discriminate. }
      rewrite E. apply basename_after_slash, Hs. }
  apply Hform. unfold posixpath.sep.
  destruct acc as [|x acc]; destruct k as [|[|k]].
  - left. reflexivity.
  - right. exists "". reflexivity.
  - right. exists "/". reflexivity.
  - right. eexists. reflexivity.
  - right. eexists. rewrite <- app_assoc_str. reflexivity.
  - right. eexists. rewrite <- app_assoc_str. reflexivity.
Qed.

Lemma plain_not_absolute (n : string) :
  plain_component n -> PyStr.startswith posixpath.sep n = false.
Proof.
  intros (_ & _ & _ & Hs). destruct n as [|c n]; [reflexivity|].
  unfold has_slash in Hs. cbn [list_ascii_of_string existsb] in Hs.
  apply orb_false_iff in Hs as [Hc _].
  unfold posixpath.sep. cbn [PyStr.startswith]. rewrite Hc. reflexivity.
Qed.

Lemma normpath_plain (n : string) :
  plain_component n -> posixpath.normpath n = n.
Proof.
  intros Hp. pose proof Hp as (Hne & _ & _ & Hs).
  unfold posixpath.normpath.
  apply String.eqb_neq in Hne. rewrite Hne, (plain_not_absolute n Hp).
  rewrite (split_no_slash n Hs). cbn [fold_left].
  rewrite (normpath_step_plain _ _ _ Hp). cbn. rewrite Hne. reflexivity.
Qed.

(** The destination obtained by joining a plain module name to any path
    ends in that name. *)
Lemma basename_normpath_join (q n : string) :
  plain_component n ->
  posixpath.basename (posixpath.normpath (posixpath.join q n)) = n.
Proof.
  intros Hp. pose proof Hp as (_ & _ & _ & Hs).
  unfold posixpath.join. rewrite (plain_not_absolute n Hp).
  destruct (String.eqb_spec q "") as [->|Hq]; cbn [orb].
  - rewrite app_empty_l, (normpath_plain n Hp). apply basename_no_slash, Hs.
  - destruct (PyStr.endswith posixpath.sep q) eqn:E.
    + apply endswith_char_split in E as (q' & ->).
      rewrite app_assoc_str. apply (basename_normpath_snoc q' n Hp).
    + apply (basename_normpath_snoc q n Hp).
Qed.

(** ** The destination resolver *)

Lemma base_config_sound cwd md gd base :
  base_config cwd md gd base -> resolve_base cwd md gd = Ok base.
Proof.
  intros [g -> Hg | b Hgd Hb | Hgd Hb]; unfold resolve_base.
  - apply truthy_str in Hg. rewrite Hg. reflexivity.
  - rewrite Hgd, Hb. reflexivity.
  - rewrite Hgd, Hb. reflexivity.
Qed.

Lemma resolve_base_not_value_error cwd md gd msg :
  resolve_base cwd md gd <> Raise (ValueError msg).
Proof.
  unfold resolve_base, os_path_abspath.
  destruct (truthy gd).
  - destruct gd; simpl; congruence.
  - destruct (md !! "__global_default_dest__") as [[]|]; simpl; congruence.
Qed.

(** C4: an absolute per-module destination is refused with a
    [ValueError], whichever way the base is established: by the global
    override, by the default of the configuration, or not at all. *)
Theorem resolve_absolute_dest_rejected cwd md gd d base :
  dict_get md "dest" = VStr d ->
  posixpath.isabs d = true ->
  base_config cwd md gd base ->
  resolve_mod_dest cwd md gd
  = Raise (ValueError ("Per-module dest should not be absolute: " +:+ d)).
Proof.
  intros Hd Habs Hb. unfold resolve_mod_dest.
  rewrite (base_config_sound _ _ _ _ Hb), Hd. simpl.
  destruct (String.eqb_spec d "") as [->|_]; [discriminate Habs|].
  simpl. rewrite Habs. reflexivity.
Qed.

Lemma resolve_absolute_dest_rejected_witness :
  resolve_mod_dest "/work" (mk_mod "fa" (Some "/etc")) (VStr "/out")
  = Raise (ValueError "Per-module dest should not be absolute: /etc")
  /\ resolve_mod_dest "/work"
       (<["__global_default_dest__" := VStr "rel"]> (mk_mod "fa" (Some "/etc"))) VNone
     = Raise (ValueError "Per-module dest should not be absolute: /etc")
  /\ resolve_mod_dest "/work" (mk_mod "fa" (Some "/etc")) VNone
     = Raise (ValueError "Per-module dest should not be absolute: /etc").
Proof.
  split; [|split].
  - apply (resolve_absolute_dest_rejected "/work" _ (VStr "/out") "/etc"
             (posixpath.abspath "/work" "/out")).
    + reflexivity.
    + reflexivity.
    + apply (base_global _ _ _ "/out"); [reflexivity | discriminate].
  - apply (resolve_absolute_dest_rejected "/work" _ VNone "/etc"
             (posixpath.abspath "/work" "rel")).
    + reflexivity.
    + reflexivity.
    + apply (base_default _ _ _ "rel"); reflexivity.
  - apply (resolve_absolute_dest_rejected "/work" _ VNone "/etc" "/work").
    + reflexivity.
    + reflexivity.
    + apply base_cwd; reflexivity.
Defined.

(** C7 fails for the empty override, which the resolver takes as unset:
    the module name is appended to the base. *)
Lemma override_always_joined_fails : ~ override_always_joined.
Proof.
  intros H.
  specialize (H "/work" (mk_mod "fa" (Some "")) (VStr "/b") "" "fa"
                (posixpath.abspath "/work" "/b")
                eq_refl eq_refl eq_refl).
  assert (Hb : base_config "/work" (mk_mod "fa" (Some "")) (VStr "/b")
                 (posixpath.abspath "/work" "/b")).
  { apply (base_global _ _ _ "/b"); [reflexivity | discriminate]. }
  specialize (H Hb). vm_compute in H. discriminate H.
Qed.

(** C7 (amended): for a relative override that is not empty, the
    destination is base/override/name when the override ends in a
    separator (its last component is then the name, for a plain name),
    and base/override, without the name, when it does not. *)
Theorem resolve_relative_dest cwd md gd d base :
  dict_get md "dest" = VStr d ->
  d <> "" ->
  posixpath.isabs d = false ->
  base_config cwd md gd base ->
  (ends_in_sep d = true ->
   forall n, dict_get md "name" = VStr n ->
     resolve_mod_dest cwd md gd
     = Ok (posixpath.normpath (posixpath.join3 base d n))
     /\ (plain_component n ->
         posixpath.basename (posixpath.normpath (posixpath.join3 base d n)) = n))
  /\ (ends_in_sep d = false ->
      resolve_mod_dest cwd md gd
      = Ok (posixpath.normpath (posixpath.join base d))).
Proof.
  intros Hd Hne Habs Hb.
  apply truthy_str in Hne.
  split; intros Hsep; [intros n Hn|]; unfold resolve_mod_dest;
    rewrite (base_config_sound _ _ _ _ Hb), Hd; cbn [mbind result_bind];
    rewrite Hne; cbn [fspath mbind result_bind]; rewrite Habs;
    fold (ends_in_sep d); rewrite Hsep.
  - rewrite Hn. split; [reflexivity|].
    intros Hp. apply basename_normpath_join, Hp.
  - reflexivity.
Qed.

Lemma resolve_relative_dest_witness :
  resolve_mod_dest "/work" (mk_mod "fa" (Some "mods/")) (VStr "/out")
  = Ok "/out/mods/fa"
  /\ resolve_mod_dest "/work" (mk_mod "fa" (Some "mods")) VNone
     = Ok "/work/mods".
Proof.
  split.
  - exact (proj1 (proj1 (resolve_relative_dest "/work" (mk_mod "fa" (Some "mods/"))
             (VStr "/out") "mods/" (posixpath.abspath "/work" "/out")
             eq_refl ltac:(discriminate) eq_refl
             (base_global "/work" (mk_mod "fa" (Some "mods/")) (VStr "/out")
                          "/out" eq_refl ltac:(discriminate)))
           eq_refl "fa" eq_refl)).
  - exact (proj2 (resolve_relative_dest "/work" (mk_mod "fa" (Some "mods"))
             VNone "mods" "/work"
             eq_refl ltac:(discriminate) eq_refl
             (base_cwd "/work" (mk_mod "fa" (Some "mods")) VNone
                       eq_refl eq_refl))
           eq_refl).
Defined.

(** The resolver reads three keys of the module record and no other. *)
Lemma resolve_mod_dest_other_key cwd md gd k v :
  k <> "name" -> k <> "dest" -> k <> "__global_default_dest__" ->
  resolve_mod_dest cwd (<[k := v]> md) gd = resolve_mod_dest cwd md gd.
Proof.
  intros Hn Hd Hg.
  unfold resolve_mod_dest, resolve_base, dict_get.
  rewrite !lookup_insert_ne by assumption. reflexivity.
Qed.

(** C8: without a per-module override the destination is base/name when
    the global override or the default of the configuration gives a base,
    and cwd/name when neither does; keys of the module record other than
    the three the resolver reads do not change it, and a plain name is the
    last component of the destination. *)
Theorem resolve_without_override cwd md gd n :
  truthy (dict_get md "dest") = false ->
  dict_get md "name" = VStr n ->
  (forall g, gd = VStr g -> g <> "" ->
     resolve_mod_dest cwd md gd
     = Ok (posixpath.normpath (posixpath.join (posixpath.abspath cwd g) n)))
  /\ (forall b, truthy gd = false ->
        md !! "__global_default_dest__" = Some (VStr b) ->
        resolve_mod_dest cwd md gd
        = Ok (posixpath.normpath (posixpath.join (posixpath.abspath cwd b) n)))
  /\ (truthy gd = false ->
      md !! "__global_default_dest__" = None ->
      resolve_mod_dest cwd md gd
      = Ok (posixpath.normpath (posixpath.join cwd n)))
  /\ (forall k v,
        k <> "name" -> k <> "dest" -> k <> "__global_default_dest__" ->
        resolve_mod_dest cwd (<[k := v]> md) gd = resolve_mod_dest cwd md gd)
  /\ (plain_component n ->
      forall base,
        posixpath.basename (posixpath.normpath (posixpath.join base n)) = n).
Proof.
  intros Hd Hn. split; [|split; [|split; [|split]]].
  - intros g -> Hg. apply truthy_str in Hg.
    unfold resolve_mod_dest, resolve_base. rewrite Hd, Hn, Hg. reflexivity.
  - intros b Hgd Hb.
    unfold resolve_mod_dest, resolve_base. rewrite Hd, Hn, Hgd, Hb. reflexivity.
  - intros Hgd Hb.
    unfold resolve_mod_dest, resolve_base. rewrite Hd, Hn, Hgd, Hb.
    cbn. rewrite abspath_join. reflexivity.
  - intros k v. apply resolve_mod_dest_other_key.
  - intros Hp base. apply basename_normpath_join, Hp.
Qed.

Lemma resolve_without_override_witness :
  resolve_mod_dest "/work" (mk_mod "fa" None) (VStr "out") = Ok "/work/out/fa"
  /\ resolve_mod_dest "/work" (mk_mod "fa" None) VNone = Ok "/work/fa"
  /\ resolve_mod_dest "/work" (<["branch" := VStr "main"]> (mk_mod "fa" None)) VNone
     = resolve_mod_dest "/work" (mk_mod "fa" None) VNone.
Proof.
  pose proof (resolve_without_override "/work" (mk_mod "fa" None) (VStr "out")
                "fa" eq_refl eq_refl) as (H1 & _).
  pose proof (resolve_without_override "/work" (mk_mod "fa" None) VNone
                "fa" eq_refl eq_refl) as (_ & _ & H3 & H4 & _).
  split; [|split].
  - exact (H1 "out" eq_refl ltac:(discriminate)).
  - exact (H3 eq_refl eq_refl).
  - apply H4; discriminate.
Defined.

(** C9: a relative override is never refused.  The [ValueError] of the
    resolver cannot be raised for it; with a base and a module name the
    resolver returns a normalized path; and that path may lie outside the
    base, as for "../../etc". *)
Theorem relative_dest_never_rejected cwd md gd d :
  dict_get md "dest" = VStr d ->
  posixpath.isabs d = false ->
  (forall msg, resolve_mod_dest cwd md gd <> Raise (ValueError msg))
  /\ (forall base n,
        base_config cwd md gd base ->
        dict_get md "name" = VStr n ->
        resolve_mod_dest cwd md gd
        = Ok (posixpath.normpath
                (if String.eqb d "" then posixpath.join base n
                 else if ends_in_sep d then posixpath.join3 base d n
                 else posixpath.join base d)))
  /\ (resolve_mod_dest "/home/u/work" (mk_mod "fa" (Some "../../etc")) VNone
      = Ok "/home/etc"
      /\ PyStr.startswith "/home/u/work" "/home/etc" = false).
Proof.
  intros Hd Habs. split; [|split].
  - intros msg. unfold resolve_mod_dest. rewrite Hd.
    pose proof (resolve_base_not_value_error cwd md gd msg) as Hb.
    destruct (resolve_base cwd md gd) as [base|e]; [|exact Hb].
    cbn [mbind result_bind fspath]. rewrite Habs.
    unfold os_path_abspath.
    destruct (truthy (VStr d)); cbn [mbind result_bind fspath].
    + destruct (_ || _); [|discriminate].
      destruct (dict_get md "name"); cbn; discriminate.
    + destruct (_ || _); destruct (dict_get md "name"); cbn; discriminate.
  - intros base n Hb Hn. unfold resolve_mod_dest.
    rewrite (base_config_sound _ _ _ _ Hb), Hd, Hn.
    cbn [mbind result_bind fspath]. rewrite Habs.
    unfold os_path_abspath. cbn [mbind result_bind fspath].
    rewrite abspath_join. fold (ends_in_sep d). cbn [truthy].
    destruct (String.eqb d ""); cbn [negb].
    + destruct Hb as [g -> Hg | b Hgd Hb | Hgd Hb].
      * apply truthy_str in Hg. rewrite Hg. reflexivity.
      * rewrite Hgd, Hb. reflexivity.
      * rewrite Hgd, Hb. reflexivity.
    + destruct (ends_in_sep d); reflexivity.
  - split; vm_compute; reflexivity.
Qed.

Lemma relative_dest_never_rejected_witness :
  resolve_mod_dest "/home/u/work" (mk_mod "fa" (Some "../../etc")) (VStr "rel")
  = Ok "/home/u/etc".
Proof.
  exact (proj1 (proj2 (relative_dest_never_rejected "/home/u/work"
           (mk_mod "fa" (Some "../../etc")) (VStr "rel") "../../etc"
           eq_refl eq_refl))
         (posixpath.abspath "/home/u/work" "rel") "fa"
         (base_global "/home/u/work" (mk_mod "fa" (Some "../../etc"))
            (VStr "rel") "rel" eq_refl ltac:(discriminate))
         eq_refl).
Defined.

(** ** Manifest loading and validation *)

Example splitext_ex1 : splitext_root "B_1.2.0.zip" = "B_1.2.0".
Proof. reflexivity. Qed.
Example splitext_ex2 : splitext_root ".hidden" = ".hidden".
Proof. reflexivity. Qed.
Example splitext_ex3 : splitext_root "..a.b" = "..a".
Proof. reflexivity. Qed.
Example load_ex1 :
  load_info_json "/" sample_fs "/src/A"
  = Ok (Some [("name", VStr "A"); ("version", VStr "0.1.0")]).
Proof. reflexivity. Qed.
Example load_ex2 : load_info_json "/" sample_fs "/src/empty" = Ok None.
Proof. reflexivity. Qed.
Example load_ex3 : load_info_json "/" sample_fs "/src/C_1.0.zip" = Ok None.
Proof. reflexivity. Qed.
Example load_ex4 :
  load_info_json "/" sample_fs "/src/D_1.0.zip"
  = Raise (ValueError
      "info.json in /src/D_1.0.zip missing required 'name' or 'version' key").
Proof. reflexivity. Qed.

Lemma py_eq_str_spec (v : value) (s : string) :
  py_eq_str v s = true <-> v = VStr s.
Proof.
  destruct v; simpl; try (split; [discriminate|congruence]).
  destruct (String.eqb_spec s0 s); split; congruence.
Qed.

Lemma check_required_keys_rejected path v :
  content_rejected (JsonDoc v) ->
  exists msg, check_required_keys path v = Raise (ValueError msg).
Proof.
  destruct v; simpl; eauto.
  intros [H|H]; rewrite H; simpl; eauto.
  destruct (manifest_has kv "name"); simpl; eauto.
Qed.

(** C5: the loader separates "absent" from hard errors.  A directory
    without [info.json] and an archive without the member
    [<basename>/info.json] give [None]; a manifest that is malformed, not
    an object or without [name] or [version] raises [ValueError]. *)
Theorem load_info_json_absent_or_error cwd fs path :
  (fs_isdir fs path = true ->
   fs_isfile fs (posixpath.join path "info.json") = false ->
   load_info_json cwd fs path = Ok None)
  /\ (fs_isdir fs path = false ->
      fs_is_zipfile fs path = true ->
      fs_zip_member fs path (manifest_member path) = None ->
      load_info_json cwd fs path = Ok None)
  /\ (fs_isdir fs path = true ->
      fs_isfile fs (posixpath.join path "info.json") = true ->
      content_rejected (fs_json_load fs (posixpath.join path "info.json")) ->
      exists msg, load_info_json cwd fs path = Raise (ValueError msg))
  /\ (forall o,
        fs_isdir fs path = false ->
        fs_is_zipfile fs path = true ->
        fs_zip_member fs path (manifest_member path) = Some o ->
        content_rejected o ->
        exists msg, load_info_json cwd fs path = Raise (ValueError msg)).
Proof.
  unfold load_info_json, manifest_member. repeat split.
  - intros -> ->. reflexivity.
  - intros -> -> ->. reflexivity.
  - intros -> -> H. cbn [negb].
    destruct (fs_json_load fs _) as [e|v]; [eauto|].
    apply check_required_keys_rejected, H.
  - intros o -> -> -> H.
    destruct o as [e|v]; [eauto|].
    apply check_required_keys_rejected, H.
Qed.

Lemma load_info_json_absent_or_error_witness :
  load_info_json "/" sample_fs "/src/empty" = Ok None
  /\ load_info_json "/" sample_fs "/src/C_1.0.zip" = Ok None
  /\ (exists msg, load_info_json "/" sample_fs "/src/D_1.0.zip"
                  = Raise (ValueError msg))
  /\ (exists msg, load_info_json "/" sample_fs "/src/E_1.0.zip"
                  = Raise (ValueError msg)).
Proof.
  split; [|split; [|split]].
  - exact (proj1 (load_info_json_absent_or_error "/" sample_fs "/src/empty")
             eq_refl eq_refl).
  - exact (proj1 (proj2 (load_info_json_absent_or_error "/" sample_fs
                           "/src/C_1.0.zip")) eq_refl eq_refl eq_refl).
  - exact (proj2 (proj2 (proj2 (load_info_json_absent_or_error "/" sample_fs
                                  "/src/D_1.0.zip")))
             (JsonDoc (VDict [("name", VStr "D")]))
             eq_refl eq_refl eq_refl (or_intror eq_refl)).
  - exact (proj2 (proj2 (proj2 (load_info_json_absent_or_error "/" sample_fs
                                  "/src/E_1.0.zip")))
             (JsonDoc (VList [])) eq_refl eq_refl eq_refl I).
Defined.

(** C2 fails on an absent manifest: validation raises
    [FileNotFoundError]. *)
Lemma validate_never_raises_fails : ~ validate_never_raises.
Proof.
  intros H.
  destruct (H "/" sample_fs "empty" "/src/empty" None) as (b & Hb & _).
  vm_compute in Hb. discriminate Hb.
Qed.

(** C2 (amended): validation returns [True] exactly when a manifest is
    present and its [name] is the expected name, character for character;
    it returns [False] when loading raises or the name differs; and when
    the manifest is absent it raises [FileNotFoundError]. *)
Theorem validate_mod_outcomes cwd fs mod_name mod_path info :
  (validate_mod cwd fs mod_name mod_path info = Ok true <->
   exists i, manifest_outcome cwd fs mod_path info = Ok (Some i)
             /\ manifest_get i "name" = VStr mod_name)
  /\ (validate_mod cwd fs mod_name mod_path info = Ok false <->
      (exists e, manifest_outcome cwd fs mod_path info = Raise e)
      \/ (exists i, manifest_outcome cwd fs mod_path info = Ok (Some i)
                    /\ manifest_get i "name" <> VStr mod_name))
  /\ (validate_mod cwd fs mod_name mod_path info
      = Raise (FileNotFoundError ("Missing info.json in "
                                  +:+ posixpath.abspath cwd mod_path)) <->
      manifest_outcome cwd fs mod_path info = Ok None).
Proof.
  unfold validate_mod. fold (manifest_outcome cwd fs mod_path info).
  destruct (manifest_outcome cwd fs mod_path info) as [[i|]|e].
  - pose proof (py_eq_str_spec (manifest_get i "name") mod_name) as Hs.
    destruct (py_eq_str (manifest_get i "name") mod_name); cbn [negb].
    + assert (Hn : manifest_get i "name" = VStr mod_name) by (apply Hs; reflexivity).
      repeat split; try discriminate; eauto.
      * intros [(e & He)|(i' & Hi & Hne)]; [discriminate|].
        injection Hi as <-. contradiction.
    + assert (Hn : manifest_get i "name" <> VStr mod_name).
      { intros Heq. apply Hs in Heq. discriminate. }
      repeat split; try discriminate; eauto.
      * intros (i' & Hi & Heq). injection Hi as <-. contradiction.
  - repeat split; try discriminate; eauto.
    + intros (i & Hi & _). discriminate.
    + intros [(e & He)|(i & Hi & _)]; discriminate.
  - repeat split; try discriminate; eauto.
    intros (i & Hi & _). discriminate.
Qed.

Lemma validate_mod_outcomes_witness :
  validate_mod "/" sample_fs "A" "/src/A" None = Ok true
  /\ validate_mod "/" sample_fs "a" "/src/A" None = Ok false
  /\ validate_mod "/" sample_fs "D" "/src/D_1.0.zip" None = Ok false
  /\ validate_mod "/" sample_fs "empty" "/src/empty" None
     = Raise (FileNotFoundError "Missing info.json in /src/empty").
Proof.
  split; [|split; [|split]].
  - apply (proj1 (validate_mod_outcomes "/" sample_fs "A" "/src/A" None)).
    exists [("name", VStr "A"); ("version", VStr "0.1.0")].
    split; reflexivity.
  - apply (proj1 (proj2 (validate_mod_outcomes "/" sample_fs "a" "/src/A" None))).
    right. exists [("name", VStr "A"); ("version", VStr "0.1.0")].
    split; [reflexivity | discriminate].
  - apply (proj1 (proj2 (validate_mod_outcomes "/" sample_fs "D"
                           "/src/D_1.0.zip" None))).
    left. eexists. reflexivity.
  - apply (proj2 (proj2 (proj2 (validate_mod_outcomes "/" sample_fs "empty"
                                  "/src/empty" None)))).
    reflexivity.
Defined.

(** ** Asset discovery *)

Example discovery_ex1 :
  find_mod_assets_or_sources "/" sample_fs
    [<["bundle_zip" := VBool false]> (mk_mod "A" None)] "/src"
  = Ok {[ "A" := "/src/A" ]}.
Proof. vm_compute. reflexivity. Qed.
Example discovery_ex2 :
  find_mod_assets_or_sources "/" sample_fs [mk_mod "B" None] "/src"
  = Raise (ValueError
      "Multiple valid zips found for mod 'B': B_1.2.0.zip, B_1.3.0.zip").
Proof. vm_compute. reflexivity. Qed.
Example discovery_ex3 :
  find_mod_assets_or_sources "/" sample_fs [mk_mod "C" None] "/src"
  = Raise (FileNotFoundError "No valid zip found for mod 'C' in /src").
Proof. vm_compute. reflexivity. Qed.

(** A candidate survives exactly when its manifest loads and carries the
    name of the module; every failure on the way only drops it. *)
Lemma zip_is_valid_spec cwd fs modname z :
  zip_is_valid cwd fs modname z = true <->
  exists i, load_info_json cwd fs z = Ok (Some i)
            /\ manifest_get i "name" = VStr modname.
Proof.
  unfold zip_is_valid, validate_mod.
  destruct (load_info_json cwd fs z) as [[i|]|e] eqn:E.
  - pose proof (py_eq_str_spec (manifest_get i "name") modname) as Hs.
    destruct (py_eq_str (manifest_get i "name") modname); cbn [negb].
    + split; [|reflexivity]. intros _. exists i. split; [reflexivity|].
      apply Hs. reflexivity.
    + split; [discriminate|]. intros (i' & Hi & Hn). injection Hi as <-.
      apply Hs in Hn. discriminate.
  - split; [discriminate|]. intros (i & Hi & _). discriminate.
  - split; [discriminate|]. intros (i & Hi & _). discriminate.
Qed.

Lemma find_mod_assets_loop_app cwd fs pre rest source_path acc :
  find_mod_assets_loop cwd fs (pre ++ rest) source_path acc
  = (r ← find_mod_assets_loop cwd fs pre source_path acc;
     find_mod_assets_loop cwd fs rest source_path r).
Proof.
  revert acc. induction pre as [|md pre IH]; intros acc; [reflexivity|].
  cbn [app find_mod_assets_loop].
  destruct (fspath (dict_get md "name")) as [modname|e]; [|reflexivity].
  cbn [mbind result_bind].
  destruct (find_mod_asset cwd fs source_path modname _) as [p|e]; [|reflexivity].
  cbn [mbind result_bind]. apply IH.
Qed.

(** An error on one module stops the discovery with that error. *)
Lemma find_mod_assets_error_is_fatal cwd fs pre md post source_path modname results e :
  dict_get md "name" = VStr modname ->
  find_mod_assets_or_sources cwd fs pre source_path = Ok results ->
  find_mod_asset cwd fs source_path modname
    (dict_get_default md "bundle_zip" (VBool true)) = Raise e ->
  find_mod_assets_or_sources cwd fs (pre ++ md :: post) source_path = Raise e.
Proof.
  unfold find_mod_assets_or_sources. intros Hn Hpre He.
  rewrite find_mod_assets_loop_app, Hpre.
  cbn [mbind result_bind find_mod_assets_loop]. rewrite Hn.
  cbn [fspath mbind result_bind]. rewrite He. reflexivity.
Qed.

(** Every joined item is a part of the joined string. *)
Lemma join_contains (sep x : string) (l : list string) :
  In x l -> exists a b, PyStr.join sep l = a +:+ x +:+ b.
Proof.
  induction l as [|y l IH]; [intros []|].
  intros [->|Hin].
  - destruct l as [|y' l'].
    + exists "", "". cbn [PyStr.join]. rewrite app_empty_l, app_empty_r. reflexivity.
    + exists "", (sep +:+ PyStr.join sep (y' :: l')). reflexivity.
  - destruct (IH Hin) as (a & b & Hab).
    destruct l as [|y' l']; [destruct Hin|].
    exists (y +:+ sep +:+ a), b.
    change (PyStr.join sep (y :: y' :: l'))
      with (y +:+ sep +:+ PyStr.join sep (y' :: l')).
    rewrite Hab, !app_assoc_str. reflexivity.
Qed.

(** C3: for an archive-mode module the candidates that do not load or do
    not validate are dropped without error; with no survivor the discovery
    stops with a missing-asset error ([FileNotFoundError]), with more than
    one it stops with an ambiguous-asset error ([ValueError]) whose message
    lists the file name of every survivor. *)
Theorem archive_discovery_errors cwd fs source_path pre md post modname results :
  dict_get md "name" = VStr modname ->
  archive_mode md ->
  find_mod_assets_or_sources cwd fs pre source_path = Ok results ->
  (forall z, In z (survivors cwd fs source_path modname) <->
     In z (candidates fs source_path modname)
     /\ exists i, load_info_json cwd fs z = Ok (Some i)
                  /\ manifest_get i "name" = VStr modname)
  /\ (survivors cwd fs source_path modname = [] ->
      find_mod_assets_or_sources cwd fs (pre ++ md :: post) source_path
      = Raise (FileNotFoundError ("No valid zip found for mod '" +:+ modname
                                  +:+ "' in " +:+ source_path)))
  /\ (1 < length (survivors cwd fs source_path modname) ->
      let pretty :=
        PyStr.join ", "
          (map posixpath.basename (survivors cwd fs source_path modname)) in
      find_mod_assets_or_sources cwd fs (pre ++ md :: post) source_path
      = Raise (ValueError ("Multiple valid zips found for mod '" +:+ modname
                           +:+ "': " +:+ pretty))
      /\ forall z, In z (survivors cwd fs source_path modname) ->
           exists a b, pretty = a +:+ posixpath.basename z +:+ b).
Proof.
  intros Hn Hmode Hpre. unfold archive_mode in Hmode. split; [|split].
  - intros z. unfold survivors. rewrite List.filter_In, zip_is_valid_spec.
    reflexivity.
  - intros Hnil.
    apply (find_mod_assets_error_is_fatal _ _ _ _ _ _ modname results); try assumption.
    unfold find_mod_asset. rewrite Hmode. cbn [negb].
    fold (candidates fs source_path modname).
    fold (survivors cwd fs source_path modname). rewrite Hnil. reflexivity.
  - intros Hlen pretty. split.
    + apply (find_mod_assets_error_is_fatal _ _ _ _ _ _ modname results); try assumption.
      unfold find_mod_asset. rewrite Hmode. cbn [negb].
      fold (candidates fs source_path modname).
      fold (survivors cwd fs source_path modname). subst pretty.
      destruct (survivors cwd fs source_path modname) as [|z1 [|z2 l]];
        cbn [length] in Hlen; try lia. reflexivity.
    + intros z Hz. apply join_contains, in_map, Hz.
Qed.

Lemma archive_discovery_errors_witness :
  find_mod_assets_or_sources "/" sample_fs
    [<["bundle_zip" := VBool false]> (mk_mod "A" None); mk_mod "C" None] "/src"
  = Raise (FileNotFoundError "No valid zip found for mod 'C' in /src")
  /\ find_mod_assets_or_sources "/" sample_fs
       [<["bundle_zip" := VBool false]> (mk_mod "A" None); mk_mod "B" None] "/src"
     = Raise (ValueError
         "Multiple valid zips found for mod 'B': B_1.2.0.zip, B_1.3.0.zip").
Proof.
  assert (Hlen : 1 < length (survivors "/" sample_fs "/src" "B")).
  { vm_compute. lia. }
  split.
  - exact (proj1 (proj2 (archive_discovery_errors "/" sample_fs "/src"
             [<["bundle_zip" := VBool false]> (mk_mod "A" None)]
             (mk_mod "C" None) [] "C" {[ "A" := "/src/A" ]}
             eq_refl eq_refl eq_refl)) eq_refl).
  - exact (proj1 (proj2 (proj2 (archive_discovery_errors "/" sample_fs "/src"
             [<["bundle_zip" := VBool false]> (mk_mod "A" None)]
             (mk_mod "B" None) [] "B" {[ "A" := "/src/A" ]}
             eq_refl eq_refl eq_refl)) Hlen)).
Defined.

(** ** Remote identity *)

Example normalize_ex1 :
  normalize PyStr.lower "https://GitHub.com/Factorio-Access/FactorioAccess.git/"
  = "https://github.com/factorio-access/factorioaccess".
Proof. reflexivity. Qed.
Example normalize_ex2 :
  normalize PyStr.lower "https://host/x/.git" = "https://host/x/".
Proof. reflexivity. Qed.

Lemma rstrip_app_char (c : ascii) (s : string) :
  PyStr.rstrip c (s +:+ String c "") = PyStr.rstrip c s.
Proof.
  induction s as [|a s IH].
  - rewrite app_empty_l. cbn. rewrite Ascii.eqb_refl. reflexivity.
  - rewrite app_cons. cbn [PyStr.rstrip]. rewrite IH. reflexivity.
Qed.

Lemma rstrip_no_trailing (c : ascii) (s : string) :
  PyStr.endswith (String c "") s = false -> PyStr.rstrip c s = s.
Proof.
  induction s as [|a s IH]; [reflexivity|].
  cbn [PyStr.endswith PyStr.rstrip].
  destruct (String.eqb_spec (String a s) (String c "")) as [E|E]; [discriminate|].
  intros H. rewrite (IH H).
  destruct s; [|reflexivity].
  destruct (Ascii.eqb_spec a c) as [->|]; [contradiction|reflexivity].
Qed.

Lemma endswith_app (suf s : string) : PyStr.endswith suf (s +:+ suf) = true.
Proof.
  induction s as [|a s IH].
  - rewrite app_empty_l. destruct suf; cbn [PyStr.endswith];
      rewrite String.eqb_refl; reflexivity.
  - rewrite app_cons. cbn [PyStr.endswith]. rewrite IH.
    destruct (String.eqb _ _); reflexivity.
Qed.

Lemma endswith_char_app (c : ascii) (s t : string) :
  t <> "" ->
  PyStr.endswith (String c "") (s +:+ t) = PyStr.endswith (String c "") t.
Proof.
  intros Ht. induction s as [|a s IH]; [reflexivity|].
  rewrite app_cons. cbn [PyStr.endswith].
  destruct (String.eqb_spec (String a (s +:+ t)) (String c "")) as [E|E]; [|exact IH].
  injection E as _ E. apply app_eq_empty in E. contradiction.
Qed.

Lemma drop_last_app (s suf : string) :
  PyStr.drop_last (String.length suf) (s +:+ suf) = s.
Proof.
  unfold PyStr.drop_last.
  assert (Hlen : forall a b, String.length (a +:+ b)
                             = String.length a + String.length b).
  { intros a b. induction a as [|x a IH]; [reflexivity|].
    rewrite app_cons. cbn [String.length]. rewrite IH. reflexivity. }
  rewrite Hlen. replace (String.length s + String.length suf - String.length suf)
    with (String.length s) by lia.
  induction s as [|a s IH].
  - rewrite app_empty_l. destruct suf; reflexivity.
  - rewrite app_cons. cbn [String.length String.substring]. rewrite IH. reflexivity.
Qed.

Lemma endswith_split (suf s : string) :
  PyStr.endswith suf s = true -> exists y, s = y +:+ suf.
Proof.
  induction s as [|a s IH]; cbn [PyStr.endswith].
  - destruct (String.eqb_spec "" suf) as [<-|]; [|discriminate].
    intros _. exists "". reflexivity.
  - destruct (String.eqb_spec (String a s) suf) as [<-|_].
    + intros _. exists "". reflexivity.
    + intros H. destruct (IH H) as (y & ->). exists (String a y). reflexivity.
Qed.

(** Stripping splits a string into what is kept and a run of the
    stripped character. *)
Lemma rstrip_decompose (s : string) :
  exists tail,
    s = PyStr.rstrip "/" s +:+ tail
    /\ all_slashes tail = true
    /\ PyStr.endswith "/" (PyStr.rstrip "/" s) = false.
Proof.
  induction s as [|a s (t & Hs & Ht & He)].
  - exists "". auto.
  - cbn [PyStr.rstrip]. destruct (PyStr.rstrip "/" s) as [|b r] eqn:Er.
    + rewrite app_empty_l in Hs. subst t.
      destruct (Ascii.eqb_spec a "/") as [->|Ha].
      * exists (String "/" s). rewrite app_empty_l. cbn [all_slashes].
        rewrite Ascii.eqb_refl, Ht. auto.
      * exists s. rewrite app_cons, app_empty_l. split; [reflexivity|].
        split; [exact Ht|]. cbn [PyStr.endswith].
        destruct (String.eqb_spec (String a "") "/") as [E|_]; [|reflexivity].
        injection E as E. contradiction.
    + exists t. rewrite app_cons, <- Hs. split; [reflexivity|].
      split; [exact Ht|]. cbn [PyStr.endswith].
      destruct (String.eqb_spec (String a (String b r)) "/") as [E|_];
        [discriminate E|exact He].
Qed.

Lemma rstrip_app_slashes (body tail : string) :
  all_slashes tail = true ->
  PyStr.rstrip "/" (body +:+ tail) = PyStr.rstrip "/" body.
Proof.
  revert body. induction tail as [|c t IH]; intros body Ht.
  - rewrite app_empty_r. reflexivity.
  - cbn [all_slashes] in Ht. apply andb_true_iff in Ht as [Hc Ht].
    apply Ascii.eqb_eq in Hc. subst c.
    replace (body +:+ String "/" t) with ((body +:+ "/") +:+ t)
      by (rewrite app_assoc_str; reflexivity).
    rewrite (IH _ Ht). apply rstrip_app_char.
Qed.


Section Normalize.

Variable lower : string -> string.

(** The normal form that the code computes is the one the specification
    describes, and there is no other. *)
Lemma normalize_normal_form (u n : string) :
  normalize lower u = n <-> normal_form_of lower u n.
Proof.
  unfold normalize, normal_form_of. split.
  - intros <-. destruct (rstrip_decompose (lower u)) as (t & Hs & Ht & He).
    exists (PyStr.rstrip "/" (lower u)), t.
    split; [exact Hs|]. split; [exact Ht|]. split; [exact He|].
    destruct (PyStr.endswith ".git" (PyStr.rstrip "/" (lower u))) eqn:Eg.
    + left. apply endswith_split in Eg as (y & Hy). rewrite Hy.
      pose proof (drop_last_app y ".git") as Hd.
      change (String.length ".git") with 4 in Hd. rewrite Hd. reflexivity.
    + right. auto.
  - intros (body & tail & Hl & Ht & He & Hn). rewrite Hl.
    rewrite (rstrip_app_slashes body tail Ht), (rstrip_no_trailing "/" body He).
    destruct Hn as [->|[Hg ->]].
    + rewrite endswith_app. apply (drop_last_app n ".git").
    + rewrite Hg. reflexivity.
Qed.

(** C6: the check succeeds exactly when some URL of some remote and the
    expected URL have the same normal form, and fails otherwise.  The
    normal form that the code computes is the URL in lower case, cut before
    its trailing slashes and then before one trailing ".git": it is the
    only string that fits this description.  URLs that differ in the case
    of letters only, or by a trailing slash, or by a trailing ".git" on a
    URL in normal form, have the same normal form. *)
Theorem repo_matches_expected_url_spec (r : repo) (expected_url : string) :
  (forall u n, normalize lower u = n <-> normal_form_of lower u n)
  /\ (repo_matches_expected_url lower r expected_url = true <->
      exists rm url n,
        In rm (remotes r) /\ In url (urls rm)
        /\ normal_form_of lower url n
        /\ normal_form_of lower expected_url n)
  /\ (repo_matches_expected_url lower r expected_url = false <->
      forall rm url n,
        In rm (remotes r) -> In url (urls rm) ->
        normal_form_of lower url n ->
        ~ normal_form_of lower expected_url n)
  /\ (forall u v, lower u = lower v ->
      forall n, normal_form_of lower u n <-> normal_form_of lower v n)
  /\ (forall u n, lower (u +:+ "/") = lower u +:+ "/" ->
      normal_form_of lower (u +:+ "/") n <-> normal_form_of lower u n)
  /\ (forall u, lower (u +:+ ".git") = lower u +:+ ".git" ->
      normal_form_of lower u (lower u) ->
      normal_form_of lower (u +:+ ".git") (lower u)).
Proof.
  assert (Hmatch : repo_matches_expected_url lower r expected_url = true <->
            exists rm url n,
              In rm (remotes r) /\ In url (urls rm)
              /\ normal_form_of lower url n
              /\ normal_form_of lower expected_url n).
  { unfold repo_matches_expected_url. rewrite existsb_exists. split.
    - intros (rm & Hrm & H). apply existsb_exists in H as (url & Hurl & H).
      apply String.eqb_eq in H.
      exists rm, url, (normalize lower expected_url).
      split; [exact Hrm|]. split; [exact Hurl|].
      split; apply normalize_normal_form; [exact H|reflexivity].
    - intros (rm & url & n & Hrm & Hurl & Hu & He). exists rm. split; [exact Hrm|].
      apply existsb_exists. exists url. split; [exact Hurl|].
      apply String.eqb_eq.
      apply normalize_normal_form in Hu, He. congruence. }
  split; [exact normalize_normal_form|]. split; [exact Hmatch|].
  split; [|split; [|split]].
  - split.
    + intros Hf rm url n Hrm Hurl Hu He.
      assert (Ht : repo_matches_expected_url lower r expected_url = true)
        by (apply Hmatch; eauto 10).
      congruence.
    + intros Hno.
      destruct (repo_matches_expected_url lower r expected_url) eqn:E;
        [|reflexivity].
      destruct (proj1 Hmatch eq_refl) as (rm & url & n & Hrm & Hurl & Hu & He).
      exfalso. exact (Hno rm url n Hrm Hurl Hu He).
  - intros u v H n. unfold normal_form_of. rewrite H. reflexivity.
  - intros u n H. rewrite <- !normalize_normal_form. unfold normalize.
    rewrite H. change (lower u +:+ "/") with (lower u +:+ String "/" "").
    rewrite rstrip_app_char. reflexivity.
  - intros u H Hn. apply normalize_normal_form in Hn.
    apply normalize_normal_form. unfold normalize. rewrite H.
    rewrite rstrip_no_trailing
      by (rewrite endswith_char_app by discriminate; reflexivity).
    rewrite endswith_app. apply (drop_last_app (lower u) ".git").
Qed.

End Normalize.

Lemma repo_matches_expected_url_spec_witness :
  repo_matches_expected_url PyStr.lower
    {| remotes := [ {| urls := ["git@github.com:someone/fork.git"] |};
                    {| urls := ["https://GitHub.com/Factorio-Access/FactorioAccess.git/"] |} ] |}
    "https://github.com/factorio-access/FactorioAccess" = true
  /\ normalize PyStr.lower "https://GitHub.com/Factorio-Access/FactorioAccess.git/"
     = "https://github.com/factorio-access/factorioaccess".
Proof.
  split.
  - apply (proj1 (proj2 (repo_matches_expected_url_spec PyStr.lower _ _))).
    exists {| urls := ["https://GitHub.com/Factorio-Access/FactorioAccess.git/"] |},
           "https://GitHub.com/Factorio-Access/FactorioAccess.git/",
           "https://github.com/factorio-access/factorioaccess".
    split; [right; left; reflexivity|]. split; [left; reflexivity|].
    split.
    + exists "https://github.com/factorio-access/factorioaccess.git", "/".
      repeat split. left. reflexivity.
    + exists "https://github.com/factorio-access/factorioaccess", "".
      repeat split. right. split; reflexivity.
  - apply (proj1 (repo_matches_expected_url_spec PyStr.lower
                    {| remotes := [] |} "")).
    exists "https://github.com/factorio-access/factorioaccess.git", "/".
    repeat split. left. reflexivity.
Defined.

(** ** Module lookup *)

Example find_mod_ex1 :
  find_mod PyStr.lower [mk_mod "Kruise" None; mk_mod "FactorioAccess" None; mk_mod "factorioaccess" None]
           "FACTORIOACCESS"
  = Ok (Some (mk_mod "FactorioAccess" None)).
Proof. vm_compute. reflexivity. Qed.
Example find_mod_ex2 : find_mod PyStr.lower [mk_mod "Kruise" None] "FactorioAccess" = Ok None.
Proof. vm_compute. reflexivity. Qed.

(** A manifest that [validate_mod] accepts carries the name as it is. *)
Lemma validate_mod_true_inv cwd fs mod_name mod_path :
  validate_mod cwd fs mod_name mod_path None = Ok true ->
  exists i, load_info_json cwd fs mod_path = Ok (Some i)
            /\ manifest_get i "name" = VStr mod_name.
Proof.
  unfold validate_mod.
  destruct (load_info_json cwd fs mod_path) as [[i|]|e]; try discriminate.
  destruct (py_eq_str (manifest_get i "name") mod_name) eqn:E; [|discriminate].
  intros _. exists i. split; [reflexivity|]. apply py_eq_str_spec, E.
Qed.

Section Lookup.

Variable lower : string -> string.

Lemma find_mod_cons md rest name :
  has_str_name md ->
  (name_matches lower md name /\ find_mod lower (md :: rest) name = Ok (Some md))
  \/ (~ name_matches lower md name /\ find_mod lower (md :: rest) name = find_mod lower rest name).
Proof.
  intros (s & Hs). cbn [find_mod]. rewrite Hs.
  destruct (String.eqb_spec (lower s) (lower name)) as [E|E].
  - left. split; [exists s; auto | reflexivity].
  - right. split; [|reflexivity].
    intros (s' & Hs' & E'). rewrite Hs in Hs'. injection Hs' as <-. contradiction.
Qed.

(** C10: the lookup compares names without regard to case.  It returns
    the first module of the list whose declared name equals the query
    after [str.lower] on both, and [None] exactly when no module does;
    [validate_mod], for its part, compares names as they are. *)
Theorem find_mod_first_match modules name :
  Forall has_str_name modules ->
  (forall md,
     find_mod lower modules name = Ok (Some md) <->
     exists pre post,
       modules = pre ++ md :: post
       /\ name_matches lower md name
       /\ Forall (fun m => ~ name_matches lower m name) pre)
  /\ (find_mod lower modules name = Ok None <->
      Forall (fun m => ~ name_matches lower m name) modules)
  /\ (forall cwd fs mod_name mod_path,
        validate_mod cwd fs mod_name mod_path None = Ok true ->
        exists i, load_info_json cwd fs mod_path = Ok (Some i)
                  /\ manifest_get i "name" = VStr mod_name).
Proof.
  intros Hall.
  cut ((forall md,
          find_mod lower modules name = Ok (Some md) <->
          exists pre post,
            modules = pre ++ md :: post
            /\ name_matches lower md name
            /\ Forall (fun m => ~ name_matches lower m name) pre)
       /\ (find_mod lower modules name = Ok None <->
           Forall (fun m => ~ name_matches lower m name) modules)).
  { intros [H1 H2]. split; [exact H1|]. split; [exact H2|].
    intros cwd fs mod_name mod_path. apply validate_mod_true_inv. }
  revert Hall.
  induction 1 as [|m rest Hm Hrest [IHsome IHnone]].
  - split; [intros md; split|split].
    + discriminate.
    + intros (pre & post & H & _). destruct pre; discriminate.
    + constructor.
    + reflexivity.
  - destruct (find_mod_cons m rest name Hm) as [[Hmatch Hf]|[Hno Hf]]; rewrite Hf.
    + split; [intros md; split|split].
      * intros [= <-]. exists [], rest. split; [reflexivity|]. split; [assumption|constructor].
      * intros (pre & post & Heq & Hmd & Hpre).
        destruct pre as [|m' pre]; cbn in Heq; injection Heq as <- _; [reflexivity|].
        apply Forall_cons in Hpre as [Hc _]. contradiction.
      * discriminate.
      * intros Hall. apply Forall_cons in Hall as [Hc _]. contradiction.
    + split; [intros md; split|split].
      * intros Hfind. apply IHsome in Hfind as (pre & post & -> & Hmd & Hpre).
        exists (m :: pre), post. split; [reflexivity|]. split; [assumption|].
        constructor; assumption.
      * intros (pre & post & Heq & Hmd & Hpre).
        destruct pre as [|m' pre]; cbn in Heq; injection Heq as <- Heq.
        -- contradiction.
        -- apply IHsome. exists pre, post. apply Forall_cons in Hpre as [_ Hpre]. auto.
      * intros Hn. constructor; [assumption|]. apply IHnone, Hn.
      * intros Hall. apply Forall_cons in Hall as [_ Hall]. apply IHnone, Hall.
Qed.

End Lookup.

Lemma find_mod_first_match_witness :
  find_mod PyStr.lower [mk_mod "Kruise" None; mk_mod "FactorioAccess" None] "factorioaccess"
  = Ok (Some (mk_mod "FactorioAccess" None))
  /\ validate_mod "/" sample_fs "a" "/src/A" None = Ok false.
Proof.
  split; [|reflexivity].
  apply (proj1 (find_mod_first_match PyStr.lower
                  [mk_mod "Kruise" None; mk_mod "FactorioAccess" None]
                  "factorioaccess"
                  ltac:(repeat constructor; eexists; reflexivity))).
  exists [mk_mod "Kruise" None], [].
  split; [reflexivity|]. split.
  - exists "FactorioAccess". split; reflexivity.
  - constructor; [|constructor].
    intros (s & Hs & E). vm_compute in Hs. injection Hs as <-. discriminate E.
Defined.

(** ** Bundle assembler *)




Lemma copy_mod_assets_succeeds w mods_dir mod_assets modules :
  all_succeed w ->
  Forall (has_asset mod_assets) modules ->
  copy_mod_assets w mods_dir mod_assets modules = Ok tt.
Proof.
  intros (_ & Htree & Hcopy & _). induction 1 as [|md rest (n & p & Hn & Hp) _ IH].
  - reflexivity.
  - cbn [copy_mod_assets]. unfold dict_item. rewrite Hn.
    cbn [mbind result_bind assets_item]. rewrite Hp.
    cbn [mbind result_bind fspath]. rewrite Htree, Hcopy.
    destruct (sw_isdir w p); exact IH.
Qed.






Lemma build_release_zip_succeeds cwd w modules mod_assets jkm_path launcher_path
    modlist_path default_dest bundle_name bundle_version :
  all_succeed w ->
  Forall (has_asset mod_assets) modules ->
  build_release_zip cwd w modules mod_assets jkm_path launcher_path modlist_path
    default_dest bundle_name bundle_version
  = Ok (posixpath.abspath cwd
          (posixpath.join default_dest
             (bundle_name +:+ "_" +:+ PyStr.replace "." "_" bundle_version)
           +:+ ".zip")).
Proof.
  intros Hw Hassets. unfold build_release_zip, make_archive.
  rewrite (copy_mod_assets_succeeds _ _ _ _ Hw Hassets).
  destruct Hw as (Hm & _ & Hc & Hz). rewrite Hm, !Hc, Hz. reflexivity.
Qed.







(* ================================================================= *)
(** * Further properties *)

(** ** The resolved destination is absolute *)

Lemma isabs_cons (s : string) :
  posixpath.isabs s = true <-> exists s', s = String "/" s'.
Proof.
  unfold posixpath.isabs, posixpath.sep. destruct s as [|c s]; cbn [PyStr.startswith].
  - split; [discriminate|]. intros (s' & H). discriminate.
  - rewrite andb_true_r. split.
    + intros H. apply Ascii.eqb_eq in H. subst c. eauto.
    + intros (s' & [= -> _]). reflexivity.
Qed.

Lemma isabs_normpath (p : string) :
  posixpath.isabs p = true -> posixpath.isabs (posixpath.normpath p) = true.
Proof.
  intros H. pose proof H as Habs. apply isabs_cons in H as (p' & ->).
  unfold posixpath.normpath.
  change (String.eqb (String "/" p') "") with false. cbv iota.
  unfold posixpath.isabs in Habs. rewrite Habs.
  destruct (_ && _); reflexivity.
Qed.

Lemma isabs_join (a b : string) :
  posixpath.isabs a = true \/ posixpath.isabs b = true ->
  posixpath.isabs (posixpath.join a b) = true.
Proof.
  unfold posixpath.join. fold (posixpath.isabs b).
  destruct (posixpath.isabs b) eqn:Eb; [intros _; exact Eb|].
  intros [Ha|Hb]; [|discriminate].
  apply isabs_cons in Ha as (a' & ->).
  destruct (_ || _); reflexivity.
Qed.

Lemma isabs_abspath (cwd p : string) :
  posixpath.isabs cwd = true -> posixpath.isabs (posixpath.abspath cwd p) = true.
Proof.
  intros H. rewrite abspath_join. apply isabs_normpath, isabs_join. auto.
Qed.

Lemma resolve_base_absolute cwd md gd base :
  posixpath.isabs cwd = true ->
  resolve_base cwd md gd = Ok base -> posixpath.isabs base = true.
Proof.
  intros Hcwd. unfold resolve_base, os_path_abspath.
  destruct (truthy gd).
  - destruct gd; cbn; try discriminate. intros [= <-]. apply isabs_abspath, Hcwd.
  - destruct (md !! "__global_default_dest__") as [v|].
    + destruct v; cbn; try discriminate. intros [= <-]. apply isabs_abspath, Hcwd.
    + intros [= <-]. exact Hcwd.
Qed.

(** X1: when the current directory is an absolute path, every
    destination that the resolver returns is an absolute path, as its
    docstring says. *)
Theorem resolve_mod_dest_absolute cwd md gd p :
  posixpath.isabs cwd = true ->
  resolve_mod_dest cwd md gd = Ok p ->
  posixpath.isabs p = true.
Proof.
  intros Hcwd. unfold resolve_mod_dest.
  destruct (resolve_base cwd md gd) as [base|e] eqn:Eb; [|discriminate].
  pose proof (resolve_base_absolute _ _ _ _ Hcwd Eb) as Hbase.
  cbn [mbind result_bind].
  destruct (truthy (dict_get md "dest")).
  - destruct (fspath (dict_get md "dest")) as [d|e]; [|discriminate].
    cbn [mbind result_bind].
    destruct (posixpath.isabs d); [discriminate|].
    destruct (_ || _).
    + destruct (fspath (dict_get md "name")) as [n|e]; [|discriminate].
      cbn [mbind result_bind]. intros [= <-].
      apply isabs_normpath. unfold posixpath.join3.
      apply isabs_join. left. apply isabs_join. auto.
    + intros [= <-]. apply isabs_normpath, isabs_join. auto.
  - destruct (_ || _).
    + destruct (fspath (dict_get md "name")) as [n|e]; [|discriminate].
      cbn [mbind result_bind]. intros [= <-].
      apply isabs_normpath, isabs_join. auto.
    + unfold os_path_abspath.
      destruct (fspath (dict_get md "name")) as [n|e]; [|discriminate].
      cbn [mbind result_bind]. intros [= <-]. apply isabs_abspath, Hcwd.
Qed.

Lemma resolve_mod_dest_absolute_witness :
  posixpath.isabs "/home/etc" = true.
Proof.
  exact (resolve_mod_dest_absolute "/home/u/work"
           (mk_mod "fa" (Some "../../etc")) VNone "/home/etc"
           eq_refl eq_refl).
Defined.

(** ** Manifest version *)

Lemma check_required_keys_ok path v i :
  check_required_keys path v = Ok (Some i) ->
  v = VDict i /\ manifest_has i "name" = true /\ manifest_has i "version" = true.
Proof.
  destruct v; cbn; try discriminate.
  destruct (manifest_has kv "name") eqn:En, (manifest_has kv "version") eqn:Ev;
    cbn; try discriminate.
  intros [= <-]. auto.
Qed.

Lemma load_info_json_keys_aux cwd fs path i :
  load_info_json cwd fs path = Ok (Some i) ->
  manifest_has i "name" = true /\ manifest_has i "version" = true.
Proof.
  unfold load_info_json.
  destruct (fs_isdir fs path).
  - destruct (negb _); [discriminate|].
    destruct (fs_json_load fs _) as [m|v]; [discriminate|].
    intros H. apply check_required_keys_ok in H. tauto.
  - destruct (fs_is_zipfile fs path); [|discriminate].
    destruct (fs_zip_member fs path _) as [[m|v]|]; try discriminate.
    intros H. apply check_required_keys_ok in H. tauto.
Qed.

(** X2: a manifest that the loader returns has both required keys,
    [name] and [version], whatever the path is: a directory or an
    archive. *)
Theorem load_info_json_has_keys cwd fs path i :
  load_info_json cwd fs path = Ok (Some i) ->
  manifest_has i "name" = true /\ manifest_has i "version" = true.
Proof. apply load_info_json_keys_aux. Qed.

Lemma load_info_json_has_keys_witness :
  manifest_has [("name", VStr "A"); ("version", VStr "0.1.0")] "name" = true
  /\ manifest_has [("name", VStr "A"); ("version", VStr "0.1.0")] "version" = true.
Proof.
  exact (load_info_json_has_keys "/" sample_fs "/src/A" _ eq_refl).
Defined.

Lemma get_mod_version_loaded cwd fs mod_path i :
  load_info_json cwd fs mod_path = Ok (Some i) ->
  get_mod_version_or_raise cwd fs mod_path None = Ok (manifest_get i "version").
Proof.
  intros E. unfold get_mod_version_or_raise. rewrite E. cbn [mbind result_bind].
  destruct (load_info_json_keys_aux _ _ _ _ E) as [_ Hv]. rewrite Hv. reflexivity.
Qed.

(** X3: when [get_mod_version_or_raise] loads the manifest itself, its
    own check of the [version] key never fires.  It returns exactly the
    version of the manifest that the loader returns; when the loader finds
    no manifest it raises [FileNotFoundError] with the absolute path; an
    error of the loader, whatever it is, passes through unchanged; and it
    raises nothing else. *)
Theorem get_mod_version_or_raise_outcomes cwd fs mod_path :
  (forall v,
     get_mod_version_or_raise cwd fs mod_path None = Ok v <->
     exists i, load_info_json cwd fs mod_path = Ok (Some i)
               /\ v = manifest_get i "version")
  /\ (load_info_json cwd fs mod_path = Ok None ->
      get_mod_version_or_raise cwd fs mod_path None
      = Raise (FileNotFoundError ("Missing info.json in "
                                  +:+ posixpath.abspath cwd mod_path)))
  /\ (forall e,
        load_info_json cwd fs mod_path = Raise e ->
        get_mod_version_or_raise cwd fs mod_path None = Raise e)
  /\ (forall e,
        get_mod_version_or_raise cwd fs mod_path None = Raise e ->
        load_info_json cwd fs mod_path = Raise e
        \/ (load_info_json cwd fs mod_path = Ok None
            /\ e = FileNotFoundError ("Missing info.json in "
                                      +:+ posixpath.abspath cwd mod_path))).
Proof.
  unfold get_mod_version_or_raise.
  destruct (load_info_json cwd fs mod_path) as [[i|]|e] eqn:E;
    cbn [mbind result_bind].
  - destruct (load_info_json_keys_aux _ _ _ _ E) as [_ Hv]. rewrite Hv. cbn [negb].
    repeat split; try discriminate.
    + intros [= <-]. eauto.
    + intros (i' & [= <-] & ->). reflexivity.
  - split; [|split; [|split]].
    + intros v. split; [discriminate|]. intros (i & Hi & _). discriminate.
    + reflexivity.
    + discriminate.
    + intros e [= <-]. right. split; reflexivity.
  - split; [|split; [|split]].
    + intros v. split; [discriminate|]. intros (i & Hi & _). discriminate.
    + discriminate.
    + intros e' [= <-]. reflexivity.
    + intros e' [= <-]. left. reflexivity.
Qed.

(** X4: the use in [cmd_fetch]: once [validate_mod] has accepted a
    directory, [get_mod_version_or_raise] on the same directory returns the
    version of its manifest, whose [name] is the name of the module. *)
Theorem get_mod_version_after_validate cwd fs mod_name mod_path :
  validate_mod cwd fs mod_name mod_path None = Ok true ->
  exists i,
    load_info_json cwd fs mod_path = Ok (Some i)
    /\ manifest_get i "name" = VStr mod_name
    /\ get_mod_version_or_raise cwd fs mod_path None
       = Ok (manifest_get i "version").
Proof.
  intros H. apply validate_mod_true_inv in H as (i & Hi & Hn).
  exists i. split; [exact Hi|]. split; [exact Hn|].
  apply get_mod_version_loaded, Hi.
Qed.

Lemma get_mod_version_after_validate_witness :
  get_mod_version_or_raise "/" sample_fs "/src/A" None = Ok (VStr "0.1.0").
Proof.
  destruct (get_mod_version_after_validate "/" sample_fs "A" "/src/A" eq_refl)
    as (i & Hi & _ & Hv).
  injection Hi as <-. exact Hv.
Defined.

Lemma get_mod_version_or_raise_outcomes_witness :
  get_mod_version_or_raise "/" sample_fs "/src/empty" None
  = Raise (FileNotFoundError "Missing info.json in /src/empty")
  /\ get_mod_version_or_raise "/" sample_fs "/src/none" None
     = Raise (ValueError "Not a directory or zipfile: /src/none").
Proof.
  split.
  - exact (proj1 (proj2 (get_mod_version_or_raise_outcomes "/" sample_fs
                           "/src/empty")) eq_refl).
  - exact (proj1 (proj2 (proj2 (get_mod_version_or_raise_outcomes "/" sample_fs
                                  "/src/none"))) _ eq_refl).
Defined.

(** ** Selecting the modules to process *)

Lemma lower_empty (s : string) : PyStr.lower s = "" <-> s = "".
Proof. split; [|intros ->; reflexivity]. destruct s; [reflexivity|discriminate]. Qed.

Section Select.

(** [str.lower]; the lower-case form of a string is empty for the empty
    string alone. *)
Variable lower : string -> string.
Hypothesis lower_nil : forall s, lower s = "" <-> s = "".

(** What [find_mod] returns is a module of the list whose name matches. *)
Lemma find_mod_some_inv modules name m :
  find_mod lower modules name = Ok (Some m) ->
  In m modules /\ name_matches lower m name.
Proof using Type.
  induction modules as [|md rest IH]; [discriminate|].
  cbn [find_mod].
  destruct (dict_get_default md "name" (VStr "")) as [| | |s| |] eqn:E;
    try discriminate.
  destruct (String.eqb_spec (lower s) (lower name)) as [Hl|Hl].
  - intros [= <-]. split; [left; reflexivity|]. exists s. auto.
  - intros H. destruct (IH H) as [Hin Hm]. split; [right; exact Hin|exact Hm].
Qed.

(** A module found for a query that is not empty is not an empty dict. *)
Lemma name_matches_size md name :
  name <> "" -> name_matches lower md name -> size md <> 0.
Proof using lower_nil.
  intros Hne (s & Hs & Hl) Hsize.
  apply map_size_empty_iff in Hsize. subst md.
  unfold dict_get_default in Hs. rewrite lookup_empty in Hs.
  injection Hs as <-.
  rewrite (proj2 (lower_nil "") eq_refl) in Hl. symmetry in Hl.
  apply (proj1 (lower_nil name)) in Hl. contradiction.
Qed.

(** X5: [get_mods_to_process] returns the whole list when no module name
    is given, or an empty one.  For a name that is not empty it returns the
    one module that [find_mod] finds, a module of the list whose name
    matches; it exits, with code 1, exactly when [find_mod] finds none, and
    an error of [find_mod] passes through.  Its test [not m] never
    mistakes a found module for a missing one. *)
Theorem get_mods_to_process_spec modules :
  get_mods_to_process lower modules None = Returns modules
  /\ get_mods_to_process lower modules (Some "") = Returns modules
  /\ (forall n,
        n <> "" ->
        (forall m,
           find_mod lower modules n = Ok (Some m) ->
           get_mods_to_process lower modules (Some n) = Returns [m]
           /\ In m modules /\ name_matches lower m n)
        /\ (find_mod lower modules n = Ok None ->
            get_mods_to_process lower modules (Some n) = Exits 1)
        /\ (forall e,
              find_mod lower modules n = Raise e ->
              get_mods_to_process lower modules (Some n) = Raises e)
        /\ (forall code,
              get_mods_to_process lower modules (Some n) = Exits code ->
              code = 1%Z /\ find_mod lower modules n = Ok None)
        /\ (forall l,
              get_mods_to_process lower modules (Some n) = Returns l ->
              exists m, l = [m] /\ find_mod lower modules n = Ok (Some m))).
Proof using lower_nil.
  split; [reflexivity|]. split; [reflexivity|].
  intros n Hn. unfold get_mods_to_process.
  destruct (String.eqb_spec n "") as [->|_]; [contradiction|]. cbn [negb].
  destruct (find_mod lower modules n) as [[m|]|e] eqn:E.
  - destruct (find_mod_some_inv _ _ _ E) as [Hin Hm].
    pose proof (name_matches_size m n Hn Hm) as Hs.
    destruct (Nat.eqb_spec (size m) 0) as [Hz|_]; [exact (False_ind _ (Hs Hz))|].
    repeat split; try discriminate.
    + injection H as <-. reflexivity.
    + injection H as <-. exact Hin.
    + injection H as <-. exact Hm.
    + intros l [= <-]. eauto.
  - repeat split; try discriminate.
    injection H as <-. reflexivity.
  - repeat split; try discriminate.
    intros e' [= <-]. reflexivity.
Qed.

End Select.

Lemma get_mods_to_process_spec_witness :
  get_mods_to_process PyStr.lower
    [mk_mod "Kruise" None; mk_mod "FactorioAccess" None] (Some "factorioaccess")
  = Returns [mk_mod "FactorioAccess" None]
  /\ get_mods_to_process PyStr.lower
       [mk_mod "Kruise" None; mk_mod "FactorioAccess" None] (Some "Other")
     = Exits 1.
Proof.
  pose proof (proj2 (proj2 (get_mods_to_process_spec PyStr.lower lower_empty
                [mk_mod "Kruise" None; mk_mod "FactorioAccess" None]))) as H.
  split.
  - apply (proj1 (H "factorioaccess" ltac:(discriminate))
             (mk_mod "FactorioAccess" None) eq_refl).
  - apply (proj1 (proj2 (H "Other" ltac:(discriminate))) eq_refl).
Defined.

(** ** The main module of a bundle *)

Lemma find_mod_finds lower modules name m :
  Forall has_str_name modules ->
  In m modules -> name_matches lower m name ->
  exists m', find_mod lower modules name = Ok (Some m')
             /\ name_matches lower m' name.
Proof.
  induction 1 as [|md rest Hmd Hrest IH]; [intros []|].
  intros Hin Hm.
  destruct (find_mod_cons lower md rest name Hmd) as [[Hmatch Hf]|[Hno Hf]];
    rewrite Hf.
  - eauto.
  - destruct Hin as [->|Hin]; [contradiction|]. apply IH; assumption.
Qed.

(** X6: the module that [cmd_bundle] and [cmd_upload] take as main
    module is a module of the configuration named "FactorioAccess" letter
    for letter; whenever they find one, the case-blind [find_mod] of
    [cmd_publish] finds a module as well. *)
Theorem find_main_mod_spec lower modules m :
  find_main_mod modules = Some m ->
  In m modules
  /\ dict_get m "name" = VStr "FactorioAccess"
  /\ (Forall has_str_name modules ->
      exists m', find_mod lower modules "FactorioAccess" = Ok (Some m')
                 /\ name_matches lower m' "FactorioAccess").
Proof.
  intros H.
  assert (Hm : In m modules /\ dict_get m "name" = VStr "FactorioAccess").
  { induction modules as [|md rest IH]; [discriminate|].
    cbn [find_main_mod] in H.
    destruct (py_eq_str (dict_get md "name") "FactorioAccess") eqn:E.
    - injection H as <-. split; [left; reflexivity|]. apply py_eq_str_spec, E.
    - destruct (IH H) as [Hin Hn]. split; [right; exact Hin|exact Hn]. }
  destruct Hm as [Hin Hn]. split; [exact Hin|]. split; [exact Hn|].
  intros Hall. apply (find_mod_finds lower modules "FactorioAccess" m Hall Hin).
  exists "FactorioAccess". split; [|reflexivity].
  unfold dict_get in Hn. unfold dict_get_default.
  destruct (m !! "name"); [exact Hn|discriminate].
Qed.

Lemma find_main_mod_spec_witness :
  exists m',
    find_mod PyStr.lower
      [mk_mod "factorioaccess" None; mk_mod "FactorioAccess" None]
      "FactorioAccess" = Ok (Some m')
    /\ name_matches PyStr.lower m' "FactorioAccess".
Proof.
  apply (proj2 (proj2 (find_main_mod_spec PyStr.lower
           [mk_mod "factorioaccess" None; mk_mod "FactorioAccess" None]
           (mk_mod "FactorioAccess" None) eq_refl))).
  repeat constructor; eexists; reflexivity.
Defined.

(** ** The generated module list *)

Lemma modlist_append_cases acc modules :
  (modlist_append acc modules
   = Ok (acc ++ map (fun md => (dict_get md "name", true)) modules)
   /\ Forall (fun md => is_Some (md !! "name")) modules)
  \/ (modlist_append acc modules = Raise (KeyError "name")
      /\ Exists (fun md => md !! "name" = None) modules).
Proof.
  revert acc. induction modules as [|md rest IH]; intros acc.
  - left. cbn. rewrite app_nil_r. split; [reflexivity|constructor].
  - cbn [modlist_append map]. unfold dict_item, dict_get.
    destruct (md !! "name") as [v|] eqn:E; cbn [mbind result_bind].
    + destruct (IH (acc ++ [(v, true)])) as [[-> Hall]|[-> Hex]].
      * left. rewrite <- app_assoc. split; [reflexivity|].
        constructor; [rewrite E; eauto|exact Hall].
      * right. split; [reflexivity|]. apply Exists_cons_tl, Hex.
    + right. split; [reflexivity|]. apply Exists_cons_hd, E.
Qed.

(** X7: the module list of a bundle starts with the entry for "base",
    goes on with one entry per module of the configuration, in order, and
    every entry is enabled; it is built exactly when every module has a
    [name], and the first module without one raises [KeyError]. *)
Theorem cmd_bundle_modlist_spec modules :
  (forall l,
     cmd_bundle_modlist modules = Ok l <->
     Forall (fun md => is_Some (md !! "name")) modules
     /\ l = (VStr "base", true)
            :: map (fun md => (dict_get md "name", true)) modules)
  /\ (forall l,
        cmd_bundle_modlist modules = Ok l ->
        length l = S (length modules) /\ Forall (fun e => snd e = true) l)
  /\ (forall e,
        cmd_bundle_modlist modules = Raise e <->
        e = KeyError "name" /\ Exists (fun md => md !! "name" = None) modules).
Proof.
  unfold cmd_bundle_modlist.
  destruct (modlist_append_cases [(VStr "base", true)] modules)
    as [[-> Hall]|[-> Hex]]; cbn [app].
  - split; [|split].
    + intros l. split; [intros [= <-]; auto | intros [_ ->]; reflexivity].
    + intros l [= <-]. cbn [length]. rewrite length_map. split; [reflexivity|].
      constructor; [reflexivity|]. apply Forall_map, Forall_forall. reflexivity.
    + intros e. split; [discriminate|]. intros [_ Hex]. exfalso.
      apply Exists_exists in Hex as (md & Hin & Hnone).
      rewrite Forall_forall in Hall. destruct (Hall md Hin) as [v Hv]. congruence.
  - split; [|split].
    + intros l. split; [discriminate|]. intros [Hall _]. exfalso.
      apply Exists_exists in Hex as (md & Hin & Hnone).
      rewrite Forall_forall in Hall. destruct (Hall md Hin) as [v Hv]. congruence.
    + discriminate.
    + intros e. split; [intros [= <-]; auto | intros [-> _]; reflexivity].
Qed.

Lemma cmd_bundle_modlist_spec_witness :
  cmd_bundle_modlist [mk_mod "A" None; mk_mod "B" None]
  = Ok [(VStr "base", true); (VStr "A", true); (VStr "B", true)].
Proof.
  apply (proj1 (cmd_bundle_modlist_spec [mk_mod "A" None; mk_mod "B" None])).
  split; [|reflexivity].
  repeat constructor; eexists; reflexivity.
Defined.

(** ** Splitting strings at a character *)

Lemma has_char_app (c : ascii) (s t : string) :
  has_char c (s +:+ t) = has_char c s || has_char c t.
Proof.
  unfold has_char. induction s as [|a s IH]; [reflexivity|].
  rewrite app_cons. cbn [list_ascii_of_string existsb]. rewrite IH.
  rewrite orb_assoc. reflexivity.
Qed.

Lemma has_char_cons (c a : ascii) (s : string) :
  has_char c (String a s) = Ascii.eqb c a || has_char c s.
Proof. reflexivity. Qed.

Lemma split_no_char (c : ascii) (n : string) :
  has_char c n = false -> PyStr.split c n = [n].
Proof.
  induction n as [|a n IH]; [reflexivity|].
  rewrite has_char_cons. intros H. apply orb_false_iff in H as [Ha Hn].
  cbn [PyStr.split]. rewrite Ascii.eqb_sym in Ha. rewrite Ha, (IH Hn). reflexivity.
Qed.

Lemma split_snoc_char (c : ascii) (q n : string) :
  has_char c n = false ->
  PyStr.split c (q +:+ String c n) = PyStr.split c q ++ [n].
Proof.
  intros Hn. induction q as [|a q IH].
  - rewrite app_empty_l. cbn [PyStr.split].
    rewrite Ascii.eqb_refl, (split_no_char c n Hn). reflexivity.
  - rewrite app_cons. cbn [PyStr.split]. rewrite IH.
    destruct (Ascii.eqb a c); [reflexivity|].
    pose proof (split_nonempty c q) as Hq.
    destruct (PyStr.split c q) as [|w ws]; [contradiction|reflexivity].
Qed.

Lemma item_last_snoc (l : list string) (x : string) : item_last (l ++ [x]) = x.
Proof. unfold item_last. apply last_last. Qed.

Lemma item_before_last_snoc (l : list string) (x y : string) :
  item_before_last ((l ++ [x]) ++ [y]) = x.
Proof.
  unfold item_before_last. rewrite removelast_last. apply last_last.
Qed.

Lemma endswith_char_cons_false (c : ascii) (n : string) :
  n <> "" -> has_char c n = false ->
  PyStr.endswith (String c "") n = false.
Proof.
  induction n as [|a n IH]; [contradiction|]. intros _.
  rewrite has_char_cons. intros H. apply orb_false_iff in H as [Ha Hn].
  cbn [PyStr.endswith].
  destruct (String.eqb_spec (String a n) (String c "")) as [E|_].
  - injection E as -> _. rewrite Ascii.eqb_refl in Ha. discriminate Ha.
  - destruct n as [|b n]; [reflexivity|]. apply IH; [discriminate|exact Hn].
Qed.

(** A suffix without the separator is looked for in the last component
    only. *)
Lemma endswith_after_char (c : ascii) (suf y r : string) :
  has_char c suf = false ->
  PyStr.endswith suf (y +:+ String c r) = PyStr.endswith suf r.
Proof.
  intros Hsuf.
  assert (Hne : forall z, has_char c z = true -> String.eqb z suf = false).
  { intros z Hz. apply String.eqb_neq. intros ->. congruence. }
  induction y as [|a y IH].
  - rewrite app_empty_l. cbn [PyStr.endswith]. rewrite Hne; [reflexivity|].
    rewrite has_char_cons, Ascii.eqb_refl. reflexivity.
  - rewrite app_cons. cbn [PyStr.endswith]. rewrite Hne; [exact IH|].
    rewrite has_char_cons, has_char_app, has_char_cons, Ascii.eqb_refl.
    rewrite orb_true_r, orb_true_r. reflexivity.
Qed.

(** ** The repository named by a URL *)

Section GithubRepo.

Variable R : Type.
Variable gh_get_repo : string -> result R.

Section Url.

Variables pre owner repo : string.
Hypothesis owner_plain : has_slash owner = false.
Hypothesis repo_plain : has_slash repo = false.
Hypothesis repo_nonempty : repo <> "".
Hypothesis repo_no_git : PyStr.endswith ".git" repo = false.

Let url : string := pre +:+ "/" +:+ owner +:+ "/" +:+ repo.

Lemma url_shape : url = (pre +:+ String "/" owner) +:+ String "/" repo.
Proof. unfold url. rewrite !app_assoc_str. reflexivity. Qed.

Lemma url_rstrip : PyStr.rstrip "/" url = url.
Proof.
  apply rstrip_no_trailing. rewrite url_shape.
  rewrite endswith_char_app by discriminate.
  cbn [PyStr.endswith].
  destruct (String.eqb_spec (String "/" repo) "/") as [E|_].
  - injection E as E. contradiction.
  - apply endswith_char_cons_false; assumption.
Qed.

Lemma url_no_git : PyStr.endswith ".git" url = false.
Proof.
  rewrite url_shape, (endswith_after_char "/" ".git" _ repo eq_refl).
  exact repo_no_git.
Qed.

Lemma url_parts :
  PyStr.split "/" url = (PyStr.split "/" pre ++ [owner]) ++ [repo].
Proof.
  rewrite url_shape, (split_snoc_char "/" _ repo repo_plain).
  rewrite (split_snoc_char "/" pre owner owner_plain). reflexivity.
Qed.

(** Whatever is stripped from [x], if [url] is left, the repository
    requested is [owner/repo]. *)
Lemma get_github_repo_stripped (x : string) :
  (let s := PyStr.rstrip "/" x in
   if PyStr.endswith ".git" s then PyStr.drop_last 4 s else s) = url ->
  get_github_repo gh_get_repo x = gh_get_repo (owner +:+ "/" +:+ repo).
Proof.
  cbv zeta. intros H. unfold get_github_repo. cbv zeta. rewrite H, url_parts.
  unfold len_lt. rewrite !length_app. cbn [length].
  destruct (Nat.ltb_spec (length (PyStr.split "/" pre) + 1 + 1) 2) as [Hl|_]; [lia|].
  rewrite item_before_last_snoc, item_last_snoc. reflexivity.
Qed.

Lemma url_git_rstrip : PyStr.rstrip "/" (url +:+ ".git") = url +:+ ".git".
Proof.
  apply rstrip_no_trailing. rewrite endswith_char_app by discriminate. reflexivity.
Qed.

(** X8: for a URL that ends in [/<owner>/<repo>], the repository
    requested from the API is [<owner>/<repo>], letter for letter; one
    trailing [.git] and trailing slashes make no difference. *)
Theorem get_github_repo_owner_repo :
  get_github_repo gh_get_repo url = gh_get_repo (owner +:+ "/" +:+ repo)
  /\ get_github_repo gh_get_repo (url +:+ ".git")
     = gh_get_repo (owner +:+ "/" +:+ repo)
  /\ get_github_repo gh_get_repo (url +:+ "/")
     = gh_get_repo (owner +:+ "/" +:+ repo)
  /\ get_github_repo gh_get_repo ((url +:+ ".git") +:+ "/")
     = gh_get_repo (owner +:+ "/" +:+ repo).
Proof.
  split; [|split; [|split]]; apply get_github_repo_stripped; cbv zeta.
  - rewrite url_rstrip, url_no_git. reflexivity.
  - rewrite url_git_rstrip, endswith_app. apply (drop_last_app url ".git").
  - rewrite rstrip_app_char, url_rstrip, url_no_git. reflexivity.
  - rewrite rstrip_app_char, url_git_rstrip, endswith_app.
    apply (drop_last_app url ".git").
Qed.

End Url.

End GithubRepo.

Lemma get_github_repo_owner_repo_witness :
  get_github_repo (fun full_name => Ok full_name)
    "https://github.com/Factorio-Access/FactorioAccess.git"
  = Ok "Factorio-Access/FactorioAccess".
Proof.
  exact (proj1 (proj2 (get_github_repo_owner_repo string
           (fun full_name => Ok full_name)
           "https://github.com" "Factorio-Access" "FactorioAccess"
           eq_refl eq_refl ltac:(discriminate) eq_refl))).
Defined.

Lemma has_char_substring (c : ascii) (k : nat) (s : string) :
  has_char c s = false -> has_char c (String.substring 0 k s) = false.
Proof.
  revert k. induction s as [|a s IH]; intros k H; [destruct k; reflexivity|].
  destruct k as [|k]; [reflexivity|].
  rewrite has_char_cons in H. apply orb_false_iff in H as [Ha Hs].
  cbn [String.substring]. rewrite has_char_cons, Ha. apply IH, Hs.
Qed.

(** A string with a slash splits at its last slash. *)
Lemma last_slash_split (s : string) :
  has_slash s = true ->
  exists a r, s = a +:+ "/" +:+ r /\ has_slash r = false.
Proof.
  induction s as [|c s IH]; [discriminate|].
  change (has_slash (String c s)) with (Ascii.eqb "/" c || has_slash s).
  destruct (has_slash s) eqn:Hs.
  - intros _. destruct (IH eq_refl) as (a & r & -> & Hr).
    exists (String c a), r. rewrite app_cons. auto.
  - rewrite orb_false_r. intros Hc. apply Ascii.eqb_eq in Hc. subst c.
    exists "", s. rewrite app_empty_l. auto.
Qed.

(** The request for a stripped URL of two components. *)
Lemma get_github_repo_two (R : Type) (gh_get_repo : string -> result R)
    (owner repo x : string) :
  has_slash owner = false -> has_slash repo = false ->
  normalize (fun s => s) x = owner +:+ "/" +:+ repo ->
  get_github_repo gh_get_repo x = gh_get_repo (owner +:+ "/" +:+ repo).
Proof.
  intros Ho Hr H. unfold get_github_repo. cbv zeta.
  unfold normalize in H. cbv zeta in H. rewrite H.
  change (owner +:+ "/" +:+ repo) with (owner +:+ String "/" repo) at 1 2 3.
  rewrite (split_snoc_char "/" owner repo Hr), (split_no_char "/" owner Ho).
  reflexivity.
Qed.

(** X9: [get_github_repo] refuses a URL, with [ValueError] and without
    calling the API, when no slash is left once the trailing slashes are
    stripped.  Any other URL is passed on to the API: with the trailing
    slashes and one [.git] stripped, the URL ends in [<owner>/<repo>], where
    neither has a slash, and the request is for [<owner>/<repo>]. *)
Theorem get_github_repo_invalid_url (repo_url : string) :
  (has_slash (PyStr.rstrip "/" repo_url) = false ->
   forall (R : Type) (gh_get_repo : string -> result R),
     get_github_repo gh_get_repo repo_url
     = Raise (ValueError ("Invalid GitHub repo URL: " +:+ repo_url)))
  /\ (forall pre owner repo,
        has_slash owner = false -> has_slash repo = false ->
        normal_form_of (fun s => s) repo_url (owner +:+ "/" +:+ repo)
        \/ normal_form_of (fun s => s) repo_url
             (pre +:+ "/" +:+ owner +:+ "/" +:+ repo) ->
        forall (R : Type) (gh_get_repo : string -> result R),
          get_github_repo gh_get_repo repo_url
          = gh_get_repo (owner +:+ "/" +:+ repo))
  /\ (has_slash (PyStr.rstrip "/" repo_url) = true ->
      exists pre owner repo,
        has_slash owner = false /\ has_slash repo = false
        /\ (normal_form_of (fun s => s) repo_url (owner +:+ "/" +:+ repo)
            \/ normal_form_of (fun s => s) repo_url
                 (pre +:+ "/" +:+ owner +:+ "/" +:+ repo))).
Proof.
  split; [|split].
  - intros H R gh. unfold get_github_repo. cbv zeta.
    assert (Hs : has_char "/"
              (if PyStr.endswith ".git" (PyStr.rstrip "/" repo_url)
               then PyStr.drop_last 4 (PyStr.rstrip "/" repo_url)
               else PyStr.rstrip "/" repo_url) = false).
    { destruct (PyStr.endswith ".git" _); [|exact H].
      apply has_char_substring, H. }
    rewrite (split_no_char "/" _ Hs). reflexivity.
  - intros pre owner repo Ho Hr [H|H] R gh;
      apply normalize_normal_form in H.
    + apply get_github_repo_two; assumption.
    + apply (get_github_repo_stripped R gh pre owner repo Ho Hr). exact H.
  - intros H.
    assert (Hs : has_slash (normalize (fun s => s) repo_url) = true).
    { unfold normalize. cbv zeta.
      destruct (PyStr.endswith ".git" _) eqn:E; [|exact H].
      apply endswith_split in E as (y & Hy). rewrite Hy in *.
      pose proof (drop_last_app y ".git") as Hd.
      change (String.length ".git") with 4 in Hd. rewrite Hd.
      rewrite has_slash_app in H. apply orb_true_iff in H as [H|H];
        [exact H|discriminate H]. }
    destruct (last_slash_split _ Hs) as (a & repo & Ha & Hr).
    destruct (has_slash a) eqn:Hsa.
    + destruct (last_slash_split _ Hsa) as (pre & owner & -> & Ho).
      exists pre, owner, repo. split; [exact Ho|]. split; [exact Hr|].
      right. apply normalize_normal_form. rewrite Ha, !app_assoc_str. reflexivity.
    + exists "", a, repo. split; [exact Hsa|]. split; [exact Hr|].
      left. apply normalize_normal_form. exact Ha.
Qed.

Lemma get_github_repo_invalid_url_witness :
  get_github_repo (fun full_name => Ok full_name) "FactorioAccess.git//"
  = Raise (ValueError "Invalid GitHub repo URL: FactorioAccess.git//")
  /\ get_github_repo (fun full_name => Ok full_name)
       "git@github.com:Factorio-Access/FactorioAccess.git/"
     = Ok "git@github.com:Factorio-Access/FactorioAccess".
Proof.
  split.
  - exact (proj1 (get_github_repo_invalid_url "FactorioAccess.git//") eq_refl
             string (fun full_name => Ok full_name)).
  - apply (proj1 (proj2 (get_github_repo_invalid_url
             "git@github.com:Factorio-Access/FactorioAccess.git/"))
             "" "git@github.com:Factorio-Access" "FactorioAccess"
             eq_refl eq_refl).
    left. exists "git@github.com:Factorio-Access/FactorioAccess.git", "/".
    repeat split. left. reflexivity.
Defined.

(** ** File names with an extension *)

Lemma has_dot_app (s t : string) : has_dot (s +:+ t) = has_dot s || has_dot t.
Proof.
  induction s as [|c s IH]; [reflexivity|].
  rewrite app_cons. cbn [has_dot]. rewrite IH, orb_assoc. reflexivity.
Qed.


Lemma splitext_root_aux_ext (seen : bool) (s e : string) :
  seen || has_non_dot s = true ->
  has_dot e = false ->
  splitext_root_aux seen (s +:+ String "." e) = s.
Proof.
  intros Hs He. revert seen Hs. induction s as [|c s IH]; intros seen Hs.
  - rewrite app_empty_l. cbn [splitext_root_aux]. rewrite Ascii.eqb_refl, He.
    cbn [has_non_dot] in Hs. rewrite orb_false_r in Hs. rewrite Hs. reflexivity.
  - rewrite app_cons. cbn [splitext_root_aux]. cbn [has_non_dot] in Hs.
    destruct (Ascii.eqb c ".") eqn:Ec.
    + rewrite has_dot_app. cbn [has_dot]. rewrite Ascii.eqb_refl.
      cbn [orb]. rewrite orb_true_r. cbn [negb orb] in Hs.
      rewrite (IH seen Hs). reflexivity.
    + rewrite (IH true eq_refl). reflexivity.
Qed.

(** [splitext] drops the extension of a name that has more than dots
    before it. *)
Lemma splitext_root_ext (s e : string) :
  has_non_dot s = true -> has_dot e = false ->
  splitext_root (s +:+ "." +:+ e) = s.
Proof.
  intros Hs He. unfold splitext_root.
  apply (splitext_root_aux_ext false s e); [exact Hs|exact He].
Qed.

(** X10: the manifest of an archive [<dir>/<stem>.zip] is looked up at
    the member [<stem>/info.json]: for a packaged module
    [<name>_<version>.zip] that is [<name>_<version>/info.json], the
    version included. *)
Theorem manifest_member_of_archive (dir stem : string) :
  has_slash stem = false ->
  has_non_dot stem = true ->
  manifest_member (dir +:+ "/" +:+ stem +:+ ".zip") = stem +:+ "/info.json"
  /\ forall cwd fs,
       fs_isdir fs (dir +:+ "/" +:+ stem +:+ ".zip") = false ->
       fs_is_zipfile fs (dir +:+ "/" +:+ stem +:+ ".zip") = true ->
       fs_zip_member fs (dir +:+ "/" +:+ stem +:+ ".zip")
         (stem +:+ "/info.json") = None ->
       load_info_json cwd fs (dir +:+ "/" +:+ stem +:+ ".zip") = Ok None.
Proof.
  intros Hs Hd.
  assert (Hm : manifest_member (dir +:+ "/" +:+ stem +:+ ".zip")
               = stem +:+ "/info.json").
  { unfold manifest_member.
    rewrite (basename_after_slash dir (stem +:+ ".zip")).
    - change (stem +:+ ".zip") with (stem +:+ "." +:+ "zip").
      rewrite (splitext_root_ext stem "zip" Hd eq_refl). reflexivity.
    - rewrite has_slash_app, Hs. reflexivity. }
  split; [exact Hm|].
  intros cwd fs Hdir Hzip Hmem. unfold load_info_json.
  rewrite Hdir, Hzip. fold (manifest_member (dir +:+ "/" +:+ stem +:+ ".zip")).
  rewrite Hm, Hmem. reflexivity.
Qed.

Lemma manifest_member_of_archive_witness :
  manifest_member "/src/B_1.2.0.zip" = "B_1.2.0/info.json".
Proof.
  exact (proj1 (manifest_member_of_archive "/src" "B_1.2.0" eq_refl eq_refl)).
Defined.

(** ** The release tag of [cmd_publish] *)

Example publish_tag_ex1 :
  cmd_publish_tag "/out/FactorioAccess_beta_1_2_3.zip" VNone = VStr "3".
Proof. reflexivity. Qed.
Example publish_tag_ex2 : cmd_publish_tag "/out/bundle.zip" VNone = VStr "vlatest".
Proof. reflexivity. Qed.
Example publish_tag_ex3 : cmd_publish_tag "/out/bundle_.zip" (VStr "") = VStr "vlatest".
Proof. reflexivity. Qed.

(** The tag derived from a name whose stem is [<front>_<t>]. *)
Lemma cmd_publish_tag_derived (zip_path front t : string) (tag : value) :
  truthy tag = false ->
  splitext_root (posixpath.basename zip_path) = front +:+ "_" +:+ t ->
  has_char "_" t = false ->
  cmd_publish_tag zip_path tag = VStr (if String.eqb t "" then "vlatest" else t).
Proof.
  intros Et Hstem Htu. unfold cmd_publish_tag. rewrite Et. cbn [negb].
  rewrite Hstem.
  change (front +:+ "_" +:+ t) with (front +:+ String "_" t).
  rewrite (split_snoc_char "_" front t Htu), item_last_snoc.
  unfold len_gt. rewrite length_app. cbn [length].
  pose proof (split_nonempty "_" front) as Hsp.
  destruct (Nat.ltb_spec 1 (length (PyStr.split "_" front) + 1)) as [_|Hl].
  - destruct (String.eqb_spec t "") as [->|Hne]; [reflexivity|].
    apply truthy_str in Hne. rewrite Hne. reflexivity.
  - destruct (PyStr.split "_" front); [contradiction|cbn [length] in Hl; lia].
Qed.

(** X11: the tag that [cmd_publish] uses is never empty.  A tag given on
    the command line is kept; without one the tag is the text after the last
    underscore of the name of the archive, its extension dropped, or
    "vlatest" when there is no underscore or nothing after it. *)
Theorem cmd_publish_tag_nonempty (zip_path : string) (tag : value) :
  tag = VNone \/ (exists s, tag = VStr s) ->
  (exists t, cmd_publish_tag zip_path tag = VStr t /\ t <> "")
  /\ (forall s, tag = VStr s -> s <> "" -> cmd_publish_tag zip_path tag = VStr s)
  /\ (truthy tag = false ->
      has_char "_" (splitext_root (posixpath.basename zip_path)) = false ->
      cmd_publish_tag zip_path tag = VStr "vlatest")
  /\ (forall front t,
        truthy tag = false ->
        splitext_root (posixpath.basename zip_path) = front +:+ "_" +:+ t ->
        has_char "_" t = false ->
        cmd_publish_tag zip_path tag
        = VStr (if String.eqb t "" then "vlatest" else t)).
Proof.
  intros Htag. split; [|split; [|split]].
  - unfold cmd_publish_tag.
    destruct (truthy tag) eqn:Et; cbn [negb].
    + destruct Htag as [->|(s & ->)]; [discriminate|].
      exists s. split; [reflexivity|]. apply truthy_str, Et.
    + destruct (len_gt _ 1).
      * destruct (truthy (VStr _)) eqn:E; cbn [negb].
        -- eexists. split; [reflexivity|]. apply truthy_str, E.
        -- exists "vlatest". split; [reflexivity|discriminate].
      * rewrite Et. exists "vlatest". split; [reflexivity|discriminate].
  - intros s -> Hs. unfold cmd_publish_tag.
    apply truthy_str in Hs. rewrite Hs. reflexivity.
  - intros Et Hno. unfold cmd_publish_tag. rewrite Et. cbn [negb].
    rewrite (split_no_char "_" _ Hno). cbn. rewrite Et. reflexivity.
  - intros front t. apply cmd_publish_tag_derived.
Qed.

Lemma cmd_publish_tag_nonempty_witness :
  cmd_publish_tag "/out/bundle.zip" VNone = VStr "vlatest"
  /\ cmd_publish_tag "/out/FactorioAccess_1_2_3.zip" (VStr "v1.2.3") = VStr "v1.2.3"
  /\ cmd_publish_tag "/out/FactorioAccess_beta_1_2_3.zip" VNone = VStr "3"
  /\ cmd_publish_tag "/out/FactorioAccess_.zip" (VStr "") = VStr "vlatest".
Proof.
  split; [|split; [|split]].
  - exact (proj1 (proj2 (proj2 (cmd_publish_tag_nonempty "/out/bundle.zip" VNone
             (or_introl eq_refl)))) eq_refl eq_refl).
  - exact (proj1 (proj2 (cmd_publish_tag_nonempty "/out/FactorioAccess_1_2_3.zip"
             (VStr "v1.2.3") (or_intror (ex_intro _ "v1.2.3" eq_refl))))
           "v1.2.3" eq_refl ltac:(discriminate)).
  - exact (proj2 (proj2 (proj2 (cmd_publish_tag_nonempty
             "/out/FactorioAccess_beta_1_2_3.zip" VNone (or_introl eq_refl))))
           "FactorioAccess_beta_1_2" "3" eq_refl eq_refl eq_refl).
  - exact (proj2 (proj2 (proj2 (cmd_publish_tag_nonempty
             "/out/FactorioAccess_.zip" (VStr "")
             (or_intror (ex_intro _ "" eq_refl)))))
           "FactorioAccess" "" eq_refl eq_refl eq_refl).
Defined.





(** ** What asset discovery returns *)

Lemma validate_mod_loaded cwd fs n p i :
  load_info_json cwd fs p = Ok (Some i) ->
  manifest_get i "name" = VStr n ->
  validate_mod cwd fs n p None = Ok true.
Proof.
  intros Hl Hn. unfold validate_mod. rewrite Hl.
  apply py_eq_str_spec in Hn. rewrite Hn. reflexivity.
Qed.

(** An asset that the loop body returns has been validated. *)
Lemma find_mod_asset_validated cwd fs sp n bz p :
  find_mod_asset cwd fs sp n bz = Ok p ->
  validate_mod cwd fs n p None = Ok true.
Proof.
  unfold find_mod_asset. destruct (truthy bz); cbn [negb].
  - fold (candidates fs sp n). fold (survivors cwd fs sp n).
    destruct (survivors cwd fs sp n) as [|z [|z' l]] eqn:E; try discriminate.
    intros [= <-].
    assert (Hin : In z (survivors cwd fs sp n)) by (rewrite E; left; reflexivity).
    unfold survivors in Hin. apply List.filter_In in Hin as [_ Hv].
    apply zip_is_valid_spec in Hv as (i & Hl & Hn).
    apply (validate_mod_loaded _ _ _ _ i); assumption.
  - destruct (fs_isdir fs (posixpath.join sp n)); cbn [negb]; [|discriminate].
    destruct (validate_mod cwd fs n (posixpath.join sp n) None) as [[|]|e] eqn:Ev;
      cbn [mbind result_bind negb]; try discriminate.
    intros [= <-]. exact Ev.
Qed.

Lemma find_mod_assets_loop_inv cwd fs sp modules :
  Forall (fun md => exists n, dict_get md "name" = VStr n) modules ->
  forall acc results,
    find_mod_assets_loop cwd fs modules sp acc = Ok results ->
    (forall md n, In md modules -> dict_get md "name" = VStr n ->
       is_Some (results !! n))
    /\ (forall n, is_Some (acc !! n) -> is_Some (results !! n))
    /\ (forall n p, results !! n = Some p ->
          acc !! n = Some p
          \/ (validate_mod cwd fs n p None = Ok true
              /\ exists md, In md modules /\ dict_get md "name" = VStr n)).
Proof.
  induction 1 as [|md rest (n & En) Hrest IH]; intros acc results.
  - intros [= <-]. split; [intros md n []|]. split; auto.
  - cbn [find_mod_assets_loop]. rewrite En.
    cbn [fspath mbind result_bind].
    destruct (find_mod_asset cwd fs sp n _) as [p|e] eqn:Ea; [|discriminate].
    cbn [mbind result_bind]. intros H.
    destruct (IH _ _ H) as (Hdom & Hacc & Hval).
    split; [|split].
    + intros md' n' [<-|Hin] Hn'.
      * rewrite En in Hn'. injection Hn' as <-. apply Hacc.
        rewrite lookup_insert_eq. eauto.
      * apply (Hdom md' n' Hin Hn').
    + intros k Hk. apply Hacc.
      destruct (decide (n = k)) as [->|Hne].
      * rewrite lookup_insert_eq. eauto.
      * rewrite lookup_insert_ne by exact Hne. exact Hk.
    + intros k q Hq. destruct (Hval k q Hq) as [Hins|(Hv & md' & Hin & Hn)].
      * destruct (decide (n = k)) as [->|Hne].
        -- rewrite lookup_insert_eq in Hins. injection Hins as <-.
           right. split; [apply (find_mod_asset_validated _ _ _ _ _ _ Ea)|].
           exists md. split; [left; reflexivity|exact En].
        -- rewrite lookup_insert_ne in Hins by exact Hne. left. exact Hins.
      * right. split; [exact Hv|]. exists md'. split; [right; exact Hin|exact Hn].
Qed.

(** X13: for modules that each have a [str] name: when asset discovery
    returns, its result has an entry for the name of every module, and every
    entry is a path whose manifest [validate_mod] accepts for that name;
    there is no entry for any other name. *)
Theorem find_mod_assets_validated cwd fs modules source_path results :
  Forall (fun md => exists n, dict_get md "name" = VStr n) modules ->
  find_mod_assets_or_sources cwd fs modules source_path = Ok results ->
  (forall md n, In md modules -> dict_get md "name" = VStr n ->
     is_Some (results !! n))
  /\ (forall n p, results !! n = Some p ->
        validate_mod cwd fs n p None = Ok true
        /\ exists md, In md modules /\ dict_get md "name" = VStr n).
Proof.
  unfold find_mod_assets_or_sources. intros Hnames H.
  destruct (find_mod_assets_loop_inv _ _ _ _ Hnames _ _ H) as (Hdom & _ & Hval).
  split; [exact Hdom|].
  intros n p Hp. destruct (Hval n p Hp) as [He|Hv]; [|exact Hv].
  rewrite lookup_empty in He. discriminate He.
Qed.

Lemma find_mod_assets_validated_witness :
  validate_mod "/" sample_fs "A" "/src/A" None = Ok true
  /\ is_Some (({[ "A" := "/src/A" ]} : gmap string string) !! "A").
Proof.
  pose proof (find_mod_assets_validated "/" sample_fs
           [<["bundle_zip" := VBool false]> (mk_mod "A" None)] "/src"
           {[ "A" := "/src/A" ]}
           ltac:(repeat constructor; exists "A"; reflexivity) eq_refl) as [H1 H2].
  split.
  - exact (proj1 (H2 "A" "/src/A" eq_refl)).
  - exact (H1 _ "A" (or_introl eq_refl) eq_refl).
Defined.

(** ** Directory mode *)

Lemma load_info_json_dir_rejected cwd fs path :
  fs_isdir fs path = true ->
  fs_isfile fs (posixpath.join path "info.json") = true ->
  content_rejected (fs_json_load fs (posixpath.join path "info.json")) ->
  exists msg, load_info_json cwd fs path = Raise (ValueError msg).
Proof.
  intros Hd Hf Hc. unfold load_info_json. rewrite Hd, Hf. cbn [negb].
  destruct (fs_json_load fs _) as [e|v]; [eauto|].
  apply check_required_keys_rejected, Hc.
Qed.

(** X14: the outcomes of discovery for a directory-mode module, read
    off the disk.  A missing directory and a directory without [info.json]
    both raise [FileNotFoundError]; a manifest that is malformed or lacks a
    required key, and a manifest with another name, raise [ValueError]; a
    manifest with the name of the module gives the directory. *)
Theorem find_mod_asset_directory cwd fs source_path modname bundle_zip :
  truthy bundle_zip = false ->
  let mod_dir := posixpath.join source_path modname in
  let info_path := posixpath.join mod_dir "info.json" in
  let invalid :=
    Raise (ValueError ("Directory for mod '" +:+ modname
             +:+ "' does not contain a valid info.json or name mismatch")) in
  (fs_isdir fs mod_dir = false ->
   find_mod_asset cwd fs source_path modname bundle_zip
   = Raise (FileNotFoundError ("Expected source dir for '" +:+ modname
                               +:+ "' not found: " +:+ mod_dir)))
  /\ (fs_isdir fs mod_dir = true ->
      fs_isfile fs info_path = false ->
      find_mod_asset cwd fs source_path modname bundle_zip
      = Raise (FileNotFoundError ("Missing info.json in "
                                  +:+ posixpath.abspath cwd mod_dir)))
  /\ (fs_isdir fs mod_dir = true ->
      fs_isfile fs info_path = true ->
      content_rejected (fs_json_load fs info_path) ->
      find_mod_asset cwd fs source_path modname bundle_zip = invalid)
  /\ (forall i,
        fs_isdir fs mod_dir = true ->
        fs_isfile fs info_path = true ->
        fs_json_load fs info_path = JsonDoc (VDict i) ->
        manifest_has i "name" = true ->
        manifest_has i "version" = true ->
        find_mod_asset cwd fs source_path modname bundle_zip
        = if py_eq_str (manifest_get i "name") modname then Ok mod_dir
          else invalid).
Proof.
  intros Hbz mod_dir info_path invalid. unfold find_mod_asset. rewrite Hbz.
  cbn [negb]. fold mod_dir. split; [|split; [|split]].
  - intros ->. reflexivity.
  - intros Hd Hf. rewrite Hd. cbn [negb].
    unfold validate_mod, load_info_json. rewrite Hd. fold info_path. rewrite Hf.
    reflexivity.
  - intros Hd Hf Hc. rewrite Hd. cbn [negb].
    destruct (load_info_json_dir_rejected cwd fs mod_dir Hd Hf Hc) as (msg & Hl).
    unfold validate_mod. rewrite Hl. reflexivity.
  - intros i Hd Hf Hj Hn Hv. rewrite Hd. cbn [negb].
    unfold validate_mod, load_info_json. rewrite Hd. fold info_path.
    rewrite Hf, Hj. cbn [negb check_required_keys]. rewrite Hn, Hv.
    cbn [negb orb].
    destruct (py_eq_str (manifest_get i "name") modname); reflexivity.
Qed.

Lemma find_mod_asset_directory_witness :
  find_mod_asset "/" sample_fs "/src" "A" (VBool false) = Ok "/src/A"
  /\ find_mod_asset "/" sample_fs "/src" "empty" (VBool false)
     = Raise (FileNotFoundError "Missing info.json in /src/empty")
  /\ find_mod_asset "/" sample_fs "/src" "Z" (VBool false)
     = Raise (FileNotFoundError "Expected source dir for 'Z' not found: /src/Z").
Proof.
  split; [|split].
  - exact (proj2 (proj2 (proj2 (find_mod_asset_directory "/" sample_fs "/src"
             "A" (VBool false) eq_refl)))
           [("name", VStr "A"); ("version", VStr "0.1.0")]
           eq_refl eq_refl eq_refl eq_refl eq_refl).
  - exact (proj1 (proj2 (find_mod_asset_directory "/" sample_fs "/src"
             "empty" (VBool false) eq_refl)) eq_refl eq_refl).
  - exact (proj1 (find_mod_asset_directory "/" sample_fs "/src"
             "Z" (VBool false) eq_refl) eq_refl).
Defined.

(** ** The asset check of [cmd_bundle] *)

Lemma find_mod_asset_archive cwd fs sp n bz :
  truthy bz = true ->
  find_mod_asset cwd fs sp n bz
  = match survivors cwd fs sp n with
    | [] => Raise (FileNotFoundError ("No valid zip found for mod '" +:+ n
                                      +:+ "' in " +:+ sp))
    | [z] => Ok z
    | l => Raise (ValueError ("Multiple valid zips found for mod '" +:+ n
                   +:+ "': " +:+ PyStr.join ", " (map posixpath.basename l)))
    end.
Proof.
  intros Hbz. unfold find_mod_asset. rewrite Hbz. cbn [negb].
  fold (candidates fs sp n). fold (survivors cwd fs sp n).
  destruct (survivors cwd fs sp n) as [|z [|z' l]]; reflexivity.
Qed.

(** X15: [cmd_bundle] turns only a [ValueError] of the discovery into
    its exit with code 1.  Several valid archives for a module end the
    command that way; no valid archive at all raises [FileNotFoundError],
    which [cmd_bundle] does not catch. *)
Theorem cmd_bundle_assets_outcomes cwd fs pre md post modname default_dest results :
  dict_get md "name" = VStr modname ->
  archive_mode md ->
  find_mod_assets_or_sources cwd fs pre default_dest = Ok results ->
  (1 < length (survivors cwd fs default_dest modname) ->
   cmd_bundle_assets cwd fs (pre ++ md :: post) default_dest = Exits 1)
  /\ (survivors cwd fs default_dest modname = [] ->
      cmd_bundle_assets cwd fs (pre ++ md :: post) default_dest
      = Raises (FileNotFoundError ("No valid zip found for mod '" +:+ modname
                                   +:+ "' in " +:+ default_dest)))
  /\ (forall code,
        cmd_bundle_assets cwd fs (pre ++ md :: post) default_dest = Exits code ->
        code = 1%Z
        /\ exists msg,
             find_mod_assets_or_sources cwd fs (pre ++ md :: post) default_dest
             = Raise (ValueError msg)).
Proof.
  intros Hn Hmode Hpre. unfold archive_mode in Hmode.
  pose proof (find_mod_asset_archive cwd fs default_dest modname _ Hmode) as Ha.
  split; [|split].
  - intros Hlen. unfold cmd_bundle_assets.
    destruct (survivors cwd fs default_dest modname) as [|z [|z' l]] eqn:E;
      cbn [length] in Hlen; try lia.
    rewrite (find_mod_assets_error_is_fatal _ _ _ _ _ _ modname results _
               Hn Hpre Ha). reflexivity.
  - intros Hnil. unfold cmd_bundle_assets. rewrite Hnil in Ha.
    rewrite (find_mod_assets_error_is_fatal _ _ _ _ _ _ modname results _
               Hn Hpre Ha). reflexivity.
  - intros code. unfold cmd_bundle_assets.
    destruct (find_mod_assets_or_sources cwd fs (pre ++ md :: post) default_dest)
      as [r|[msg|msg|k| |]]; try discriminate.
    intros [= <-]. eauto.
Qed.

Lemma cmd_bundle_assets_outcomes_witness :
  cmd_bundle_assets "/" sample_fs [mk_mod "B" None] "/src" = Exits 1
  /\ cmd_bundle_assets "/" sample_fs [mk_mod "C" None] "/src"
     = Raises (FileNotFoundError "No valid zip found for mod 'C' in /src").
Proof.
  assert (Hlen : 1 < length (survivors "/" sample_fs "/src" "B")).
  { vm_compute. lia. }
  split.
  - exact (proj1 (cmd_bundle_assets_outcomes "/" sample_fs [] (mk_mod "B" None)
             [] "B" "/src" ∅ eq_refl eq_refl eq_refl) Hlen).
  - exact (proj1 (proj2 (cmd_bundle_assets_outcomes "/" sample_fs []
             (mk_mod "C" None) [] "C" "/src" ∅ eq_refl eq_refl eq_refl))
           eq_refl).
Defined.

(** ** Discovery feeds the assembler *)

(** X16: for modules that each have a [str] name, the assets that
    discovery returns are enough for the assembler: with them
    [build_release_zip] on the same modules looks up no missing key, and it
    returns the absolute path of the archive as soon as the disk operations
    succeed. *)
Theorem build_release_zip_after_discovery cwd fs w modules source_path mod_assets
    jkm_path launcher_path modlist_path default_dest bundle_name bundle_version :
  Forall (fun md => exists n, dict_get md "name" = VStr n) modules ->
  find_mod_assets_or_sources cwd fs modules source_path = Ok mod_assets ->
  Forall (has_asset mod_assets) modules
  /\ (all_succeed w ->
      build_release_zip cwd w modules mod_assets jkm_path launcher_path
        modlist_path default_dest bundle_name bundle_version
      = Ok (posixpath.abspath cwd
              (posixpath.join default_dest
                 (bundle_name +:+ "_" +:+ PyStr.replace "." "_" bundle_version)
               +:+ ".zip"))).
Proof.
  intros Hnames H. unfold find_mod_assets_or_sources in H.
  destruct (find_mod_assets_loop_inv _ _ _ _ Hnames _ _ H) as (Hdom & _ & _).
  assert (Hall : Forall (has_asset mod_assets) modules).
  { apply Forall_forall. intros md Hin.
    apply list_elem_of_In in Hin.
    pose proof (proj1 (Forall_forall _ _) Hnames md
                  (proj2 (list_elem_of_In _ _) Hin)) as (n & Hn).
    destruct (Hdom md n Hin Hn) as (p & Hp).
    exists n, p. split; [|exact Hp].
    unfold dict_get in Hn. destruct (md !! "name"); [congruence|discriminate]. }
  split; [exact Hall|].
  intros Hw. apply build_release_zip_succeeds; assumption.
Qed.

Lemma build_release_zip_after_discovery_witness :
  build_release_zip "/" (quiet_world "/tmp/t" ["/src/A"])
    [<["bundle_zip" := VBool false]> (mk_mod "A" None)] {[ "A" := "/src/A" ]}
    "src/Factorio.jkm" "src/launcher.exe" "src/mod-list.json" "src"
    "FactorioAccess_" "0.1.0"
  = Ok "/src/FactorioAccess__0_1_0.zip".
Proof.
  assert (Hfound : find_mod_assets_or_sources "/" sample_fs
            [<["bundle_zip" := VBool false]> (mk_mod "A" None)] "/src"
          = Ok {[ "A" := "/src/A" ]}).
  { vm_compute. reflexivity. }
  apply (proj2 (build_release_zip_after_discovery "/" sample_fs
           (quiet_world "/tmp/t" ["/src/A"])
           [<["bundle_zip" := VBool false]> (mk_mod "A" None)] "/src"
           {[ "A" := "/src/A" ]}
           "src/Factorio.jkm" "src/launcher.exe" "src/mod-list.json" "src"
           "FactorioAccess_" "0.1.0"
           ltac:(repeat constructor; exists "A"; reflexivity) Hfound)).
  repeat split.
Defined.

(** ** The errors of the resolver *)

Lemma resolve_base_raises cwd md gd e :
  resolve_base cwd md gd = Raise e -> e = TypeError.
Proof.
  unfold resolve_base, os_path_abspath.
  destruct (truthy gd).
  - destruct gd; cbn; try discriminate; intros [= <-]; reflexivity.
  - destruct (md !! "__global_default_dest__") as [[]|]; cbn;
      try discriminate; intros [= <-]; reflexivity.
Qed.

(** X17: the resolver raises [ValueError] only for a per-module [dest]
    that is an absolute path, and nothing else but [TypeError]; when the
    name, the per-module [dest] and the base settings are strings (or
    missing), [TypeError] is excluded and the resolver fails exactly for an
    absolute [dest]. *)
Theorem resolve_mod_dest_errors cwd md gd :
  (forall e,
     resolve_mod_dest cwd md gd = Raise e ->
     e = TypeError
     \/ exists d, dict_get md "dest" = VStr d /\ posixpath.isabs d = true
                  /\ e = ValueError ("Per-module dest should not be absolute: "
                                     +:+ d))
  /\ (forall n base,
        dict_get md "name" = VStr n ->
        (dict_get md "dest" = VNone \/ exists d, dict_get md "dest" = VStr d) ->
        base_config cwd md gd base ->
        ((exists p, resolve_mod_dest cwd md gd = Ok p) <->
         ~ exists d, dict_get md "dest" = VStr d /\ posixpath.isabs d = true)).
Proof.
  split.
  - intros e. unfold resolve_mod_dest.
    destruct (resolve_base cwd md gd) as [base|e0] eqn:Eb; cbn [mbind result_bind].
    + destruct (truthy (dict_get md "dest")).
      * destruct (dict_get md "dest") as [| | |d| |] eqn:Ed;
          cbn [fspath mbind result_bind]; try (intros [= <-]; auto).
        destruct (posixpath.isabs d) eqn:Ea.
        -- intros [= <-]. right. exists d. auto.
        -- destruct (_ || _); [|discriminate].
           destruct (dict_get md "name"); cbn [fspath mbind result_bind];
             try discriminate; intros [= <-]; auto.
      * unfold os_path_abspath.
        destruct (_ || _); destruct (dict_get md "name");
          cbn [fspath mbind result_bind]; try discriminate; intros [= <-]; auto.
    + intros [= <-]. left. apply (resolve_base_raises _ _ _ _ Eb).
  - intros n base Hn Hd Hb. unfold resolve_mod_dest.
    rewrite (base_config_sound _ _ _ _ Hb), Hn. cbn [mbind result_bind].
    destruct Hd as [->|(d & Hd)].
    + cbn [truthy]. unfold os_path_abspath. split.
      * intros _ (d & Hd & _). discriminate Hd.
      * intros _. destruct (_ || _); cbn; eauto.
    + rewrite Hd. destruct (posixpath.isabs d) eqn:Ea.
      * pose proof (isabs_nonempty d Ea) as Hne. apply truthy_str in Hne.
        rewrite Hne. cbn [fspath mbind result_bind]. rewrite Ea. split.
        -- intros (p & Hp). discriminate Hp.
        -- intros Hno. exfalso. apply Hno. eauto.
      * split.
        -- intros _ (d' & [= <-] & Ha). congruence.
        -- intros _. destruct (truthy (VStr d)).
           ++ cbn [fspath mbind result_bind]. rewrite Ea.
              destruct (_ || _); cbn; eauto.
           ++ unfold os_path_abspath. destruct (_ || _); cbn; eauto.
Qed.

Lemma resolve_mod_dest_errors_witness :
  exists p, resolve_mod_dest "/work" (mk_mod "fa" (Some "mods/")) VNone = Ok p.
Proof.
  apply (proj2 (proj2 (resolve_mod_dest_errors "/work"
                         (mk_mod "fa" (Some "mods/")) VNone)
                  "fa" "/work" eq_refl
                  (or_intror (ex_intro _ "mods/" eq_refl))
                  (base_cwd "/work" (mk_mod "fa" (Some "mods/")) VNone
                            eq_refl eq_refl))).
  intros (d & Hd & Ha). injection Hd as <-. discriminate Ha.
Defined.

(** ** Destinations are in normal form *)

Lemma split_slash_free (p : string) :
  Forall (fun c => has_slash c = false) (PyStr.split "/" p).
Proof.
  induction p as [|a p IH]; [repeat constructor|].
  cbn [PyStr.split]. destruct (Ascii.eqb_spec a "/") as [->|Ha].
  - constructor; [reflexivity|exact IH].
  - destruct (PyStr.split "/" p) as [|w ws]; [repeat constructor|].
    + unfold has_slash. cbn [list_ascii_of_string existsb].
      destruct (Ascii.eqb_spec "/" a) as [<-|_]; [contradiction|reflexivity].
    + apply Forall_cons in IH as [Hw Hws]. constructor; [|exact Hws].
      unfold has_slash in *. cbn [list_ascii_of_string existsb]. rewrite Hw.
      destruct (Ascii.eqb_spec "/" a) as [<-|_]; [contradiction|reflexivity].
Qed.

Lemma repeat_snoc (x : string) (n : nat) : repeat x n ++ [x] = repeat x (S n).
Proof. induction n as [|n IH]; [reflexivity|]. cbn [repeat app]. rewrite IH. reflexivity. Qed.

Lemma last_repeat (x : string) (d : nat) :
  List.last (map Some (repeat x (S d))) None = Some x.
Proof.
  rewrite <- repeat_snoc, map_app. apply last_last.
Qed.

Lemma step_dotdot_run (d : nat) :
  posixpath.normpath_step 0 (repeat ".." d) ".." = repeat ".." (S d).
Proof.
  unfold posixpath.normpath_step.
  change (String.eqb ".." "") with false.
  change (String.eqb ".." ".") with false.
  change (String.eqb ".." "..") with true.
  cbn [orb negb Nat.eqb andb].
  destruct d as [|d]; [reflexivity|].
  rewrite last_repeat. change (String.eqb ".." "..") with true.
  rewrite orb_true_r. apply repeat_snoc.
Qed.

Lemma step_normal (k : nat) (l : list string) (c : string) :
  has_slash c = false ->
  normal_comps k l -> normal_comps k (posixpath.normpath_step k l c).
Proof.
  intros Hc (d & r & -> & Hr & Hk).
  destruct (String.eqb_spec c "") as [->|H0].
  { exists d, r. auto. }
  destruct (String.eqb_spec c ".") as [->|H1].
  { exists d, r. auto. }
  destruct (String.eqb_spec c "..") as [->|H2].
  - destruct r as [|x r _] using rev_ind.
    + rewrite app_nil_r. destruct k as [|k].
      * rewrite step_dotdot_run. exists (S d), []. rewrite app_nil_r.
        split; [reflexivity|]. split; [constructor|contradiction].
      * rewrite (Hk ltac:(discriminate)). exists 0, []. repeat split; auto.
    + apply Forall_app in Hr as [Hr Hx]. apply Forall_cons in Hx as [Hx _].
      unfold posixpath.normpath_step.
      change (String.eqb ".." "") with false.
      change (String.eqb ".." ".") with false.
      change (String.eqb ".." "..") with true.
      cbn [orb negb].
      rewrite app_assoc, map_app. cbn [map]. rewrite last_last.
      destruct Hx as (_ & _ & Hx2 & _). apply String.eqb_neq in Hx2. rewrite Hx2.
      replace (match (repeat ".." d ++ r) ++ [x] with [] => true | _ :: _ => false end)
        with false by (destruct (repeat ".." d ++ r); reflexivity).
      rewrite andb_false_r. cbn [orb]. rewrite removelast_last.
      exists d, r. auto.
  - assert (Hp : plain_component c) by (repeat split; assumption).
    rewrite (normpath_step_plain _ _ _ Hp). exists d, (r ++ [c]).
    rewrite app_assoc. split; [reflexivity|]. split; [|exact Hk].
    apply Forall_app. split; [exact Hr|]. constructor; [exact Hp|constructor].
Qed.

Lemma fold_normal (k : nat) (cs acc : list string) :
  Forall (fun c => has_slash c = false) cs ->
  normal_comps k acc ->
  normal_comps k (fold_left (posixpath.normpath_step k) cs acc).
Proof.
  intros Hcs. revert acc. induction Hcs as [|c cs Hc _ IH]; intros acc Hacc.
  - exact Hacc.
  - cbn [fold_left]. apply IH, step_normal; assumption.
Qed.

Lemma fold_plain (k : nat) (r acc : list string) :
  Forall plain_component r ->
  fold_left (posixpath.normpath_step k) r acc = acc ++ r.
Proof.
  intros Hr. revert acc. induction Hr as [|x r Hx _ IH]; intros acc.
  - rewrite app_nil_r. reflexivity.
  - cbn [fold_left]. rewrite (normpath_step_plain _ _ _ Hx), IH, <- app_assoc.
    reflexivity.
Qed.

Lemma fold_dotdots (d d0 : nat) :
  fold_left (posixpath.normpath_step 0) (repeat ".." d) (repeat ".." d0)
  = repeat ".." (d0 + d).
Proof.
  revert d0. induction d as [|d IH]; intros d0.
  - rewrite Nat.add_0_r. reflexivity.
  - cbn [repeat fold_left]. rewrite step_dotdot_run, IH. f_equal. lia.
Qed.

(** The components that [normpath] kept pass through its loop
    unchanged. *)
Lemma fold_normal_id (k : nat) (l : list string) :
  normal_comps k l -> fold_left (posixpath.normpath_step k) l [] = l.
Proof.
  intros (d & r & -> & Hr & Hk). rewrite fold_left_app.
  destruct k as [|k].
  - pose proof (fold_dotdots d 0) as Hd. cbn [repeat Nat.add] in Hd.
    rewrite Hd. apply fold_plain, Hr.
  - rewrite (Hk ltac:(discriminate)). cbn [repeat fold_left app].
    apply fold_plain, Hr.
Qed.

Lemma split_cons_char (c : ascii) (x rest : string) :
  has_char c x = false ->
  PyStr.split c (x +:+ String c rest) = x :: PyStr.split c rest.
Proof.
  induction x as [|a x IH]; intros Hx.
  - rewrite app_empty_l. cbn [PyStr.split]. rewrite Ascii.eqb_refl. reflexivity.
  - rewrite has_char_cons in Hx. apply orb_false_iff in Hx as [Ha Hx].
    rewrite app_cons. cbn [PyStr.split]. rewrite (IH Hx).
    rewrite Ascii.eqb_sym in Ha. rewrite Ha. reflexivity.
Qed.

Lemma split_join (l : list string) :
  Forall (fun c => has_slash c = false) l -> l <> [] ->
  PyStr.split "/" (PyStr.join "/" l) = l.
Proof.
  induction 1 as [|x l Hx Hl IH]; [contradiction|]. intros _.
  destruct l as [|y l].
  - cbn [PyStr.join]. apply (split_no_char "/" x Hx).
  - change (PyStr.join "/" (x :: y :: l))
      with (x +:+ String "/" (PyStr.join "/" (y :: l))).
    rewrite (split_cons_char "/" x _ Hx), IH by discriminate. reflexivity.
Qed.

Lemma normal_comps_ok (k : nat) (l : list string) :
  normal_comps k l ->
  Forall (fun c => c <> "" /\ has_slash c = false) l.
Proof.
  intros (d & r & -> & Hr & _). apply Forall_app. split.
  - apply Forall_forall. intros x Hx. apply list_elem_of_In, repeat_spec in Hx.
    subst x. split; [discriminate|reflexivity].
  - eapply Forall_impl; [exact Hr|]. intros x (H0 & _ & _ & Hs). auto.
Qed.

(** A joined path starts with the first character of its first
    component. *)
Lemma join_head (l : list string) :
  Forall (fun c => c <> "" /\ has_slash c = false) l -> l <> [] ->
  exists a rest, PyStr.join "/" l = String a rest /\ Ascii.eqb "/" a = false.
Proof.
  intros Hl Hne. destruct l as [|x l]; [contradiction|].
  apply Forall_cons in Hl as [[Hx Hs] _].
  destruct x as [|a x]; [contradiction|].
  unfold has_slash in Hs. cbn [list_ascii_of_string existsb] in Hs.
  apply orb_false_iff in Hs as [Ha _].
  destruct l as [|y l].
  - exists a, x. auto.
  - exists a, (x +:+ "/" +:+ PyStr.join "/" (y :: l)). auto.
Qed.

Lemma split_slash_cons (s : string) :
  PyStr.split "/" (String "/" s) = "" :: PyStr.split "/" s.
Proof. reflexivity. Qed.

Lemma fold_step_skip_empty (k : nat) (cs acc : list string) :
  fold_left (posixpath.normpath_step k) ("" :: cs) acc
  = fold_left (posixpath.normpath_step k) cs acc.
Proof. reflexivity. Qed.

Lemma normpath_result_fixed (k : nat) (l : list string) :
  k <= 2 -> normal_comps k l ->
  posixpath.normpath (normpath_result k l) = normpath_result k l.
Proof.
  intros Hk Hn.
  destruct l as [|x l].
  - destruct k as [|[|[|k]]]; [reflexivity|reflexivity|reflexivity|lia].
  - pose proof (normal_comps_ok _ _ Hn) as Hok.
    destruct (join_head (x :: l) Hok ltac:(discriminate)) as (a & rest & Hj & Ha).
    assert (Hsplit : PyStr.split "/" (PyStr.join "/" (x :: l)) = x :: l).
    { apply split_join; [|discriminate].
      eapply Forall_impl; [exact Hok|]. intros c [_ Hc]. exact Hc. }
    pose proof (fold_normal_id _ _ Hn) as Hfold.
    unfold normpath_result. cbv zeta.
    destruct k as [|[|[|k]]]; [| | |lia].
    + rewrite Hj. change (String.eqb (String a rest) "") with false. cbv iota.
      unfold posixpath.normpath.
      change (String.eqb (String a rest) "") with false. cbv iota.
      unfold posixpath.sep. cbn [PyStr.startswith]. rewrite Ha. cbn [andb].
      rewrite <- Hj, Hsplit, Hfold, Hj.
      change (String.eqb (String a rest) "") with false. reflexivity.
    + rewrite Hj. change ("/" +:+ String a rest) with (String "/" (String a rest)).
      change (String.eqb (String "/" (String a rest)) "") with false. cbv iota.
      unfold posixpath.normpath.
      change (String.eqb (String "/" (String a rest)) "") with false. cbv iota.
      unfold posixpath.sep. cbn [PyStr.startswith]. rewrite Ascii.eqb_refl, Ha.
      cbn [andb]. rewrite split_slash_cons.
      rewrite <- Hj, Hsplit, fold_step_skip_empty.
      rewrite Hfold, Hj.
      change ("/" +:+ String a rest) with (String "/" (String a rest)).
      reflexivity.
    + rewrite Hj.
      change ("//" +:+ String a rest)
        with (String "/" (String "/" (String a rest))).
      change (String.eqb (String "/" (String "/" (String a rest))) "") with false.
      cbv iota. unfold posixpath.normpath.
      change (String.eqb (String "/" (String "/" (String a rest))) "") with false.
      cbv iota.
      unfold posixpath.sep. cbn [PyStr.startswith]. rewrite Ascii.eqb_refl, Ha.
      cbn [andb negb]. rewrite !split_slash_cons.
      rewrite <- Hj, Hsplit, !fold_step_skip_empty.
      rewrite Hfold, Hj.
      change ("//" +:+ String a rest)
        with (String "/" (String "/" (String a rest))).
      reflexivity.
Qed.

Lemma normal_comps_nil (k : nat) : normal_comps k [].
Proof. exists 0, []. repeat split; auto. Qed.

(** What [normpath] returns is built from normal components. *)
Lemma normpath_shape (p : string) :
  p <> "" ->
  exists k l, k <= 2 /\ normal_comps k l
              /\ posixpath.normpath p = normpath_result k l.
Proof.
  intros Hp. unfold posixpath.normpath. apply String.eqb_neq in Hp. rewrite Hp.
  set (k := if PyStr.startswith posixpath.sep p
            then if PyStr.startswith "//" p && negb (PyStr.startswith "///" p)
                 then 2 else 1
            else 0).
  exists k, (fold_left (posixpath.normpath_step k) (PyStr.split "/" p) []).
  split; [|split].
  - subst k. destruct (PyStr.startswith _ p); [destruct (_ && _)|]; lia.
  - apply fold_normal; [apply split_slash_free|apply normal_comps_nil].
  - unfold normpath_result, posixpath.sep. reflexivity.
Qed.

Lemma normpath_idempotent (p : string) :
  posixpath.normpath (posixpath.normpath p) = posixpath.normpath p.
Proof.
  destruct (String.eqb_spec p "") as [->|Hp]; [reflexivity|].
  destruct (normpath_shape p Hp) as (k & l & Hk & Hn & ->).
  apply normpath_result_fixed; assumption.
Qed.

(** X18: every destination that the resolver returns is in normal form:
    [os.path.normpath] leaves it unchanged. *)
Theorem resolve_mod_dest_normalized cwd md gd p :
  resolve_mod_dest cwd md gd = Ok p ->
  posixpath.normpath p = p.
Proof.
  unfold resolve_mod_dest.
  destruct (resolve_base cwd md gd) as [base|e]; [|discriminate].
  cbn [mbind result_bind].
  destruct (truthy (dict_get md "dest")).
  - destruct (fspath (dict_get md "dest")) as [d|e]; [|discriminate].
    cbn [mbind result_bind].
    destruct (posixpath.isabs d); [discriminate|].
    destruct (_ || _).
    + destruct (fspath (dict_get md "name")) as [n|e]; [|discriminate].
      cbn [mbind result_bind]. intros [= <-]. apply normpath_idempotent.
    + intros [= <-]. apply normpath_idempotent.
  - destruct (_ || _).
    + destruct (fspath (dict_get md "name")) as [n|e]; [|discriminate].
      cbn [mbind result_bind]. intros [= <-]. apply normpath_idempotent.
    + unfold os_path_abspath.
      destruct (fspath (dict_get md "name")) as [n|e]; [|discriminate].
      cbn [mbind result_bind]. intros [= <-].
      rewrite abspath_join. apply normpath_idempotent.
Qed.

Lemma resolve_mod_dest_normalized_witness :
  posixpath.normpath "/home/etc" = "/home/etc".
Proof.
  exact (resolve_mod_dest_normalized "/home/u/work"
           (mk_mod "fa" (Some "../../etc")) VNone "/home/etc" eq_refl).
Defined.

(** The normal form of an absolute path: one or two slashes, then plain
    components. *)
Lemma normpath_absolute_shape (q : string) :
  posixpath.isabs q = true ->
  exists l, Forall plain_component l
            /\ (posixpath.normpath q = "/" +:+ PyStr.join "/" l
                \/ posixpath.normpath q = "//" +:+ PyStr.join "/" l).
Proof.
  intros Hq. pose proof Hq as Hq'. apply isabs_cons in Hq' as (q' & ->).
  unfold posixpath.normpath.
  change (String.eqb (String "/" q') "") with false. cbv iota.
  unfold posixpath.isabs in Hq. rewrite Hq.
  set (k := if PyStr.startswith "//" (String "/" q')
               && negb (PyStr.startswith "///" (String "/" q'))
            then 2 else 1).
  assert (Hk : k <> 0) by (subst k; destruct (_ && _); discriminate).
  pose proof (fold_normal k (PyStr.split "/" (String "/" q')) []
                (split_slash_free _) (normal_comps_nil k)) as (d & r & Hl & Hr & Hd).
  rewrite (Hd Hk) in Hl. cbn [repeat app] in Hl. rewrite Hl.
  exists r. split; [exact Hr|].
  subst k. destruct (_ && _); [right|left]; reflexivity.
Qed.

Lemma resolve_mod_dest_is_normpath cwd md gd p :
  posixpath.isabs cwd = true ->
  resolve_mod_dest cwd md gd = Ok p ->
  exists q, posixpath.isabs q = true /\ p = posixpath.normpath q.
Proof.
  intros Hcwd. unfold resolve_mod_dest.
  destruct (resolve_base cwd md gd) as [base|e] eqn:Eb; [|discriminate].
  pose proof (resolve_base_absolute _ _ _ _ Hcwd Eb) as Hbase.
  cbn [mbind result_bind].
  destruct (truthy (dict_get md "dest")).
  - destruct (fspath (dict_get md "dest")) as [d|e]; [|discriminate].
    cbn [mbind result_bind].
    destruct (posixpath.isabs d); [discriminate|].
    destruct (_ || _).
    + destruct (fspath (dict_get md "name")) as [n|e]; [|discriminate].
      cbn [mbind result_bind]. intros [= <-]. eexists. split; [|reflexivity].
      unfold posixpath.join3. apply isabs_join. left. apply isabs_join. auto.
    + intros [= <-]. eexists. split; [|reflexivity]. apply isabs_join. auto.
  - destruct (_ || _).
    + destruct (fspath (dict_get md "name")) as [n|e]; [|discriminate].
      cbn [mbind result_bind]. intros [= <-]. eexists. split; [|reflexivity].
      apply isabs_join. auto.
    + unfold os_path_abspath.
      destruct (fspath (dict_get md "name")) as [n|e]; [|discriminate].
      cbn [mbind result_bind]. intros [= <-]. rewrite abspath_join.
      eexists. split; [|reflexivity]. apply isabs_join. auto.
Qed.

(** X19: with an absolute current directory, a destination that the
    resolver returns is one or two slashes followed by plain components
    joined by slashes: no empty, "." or ".." component is left, also when
    the override went through parent directories. *)
Theorem resolve_mod_dest_no_dotdot cwd md gd p :
  posixpath.isabs cwd = true ->
  resolve_mod_dest cwd md gd = Ok p ->
  exists l, Forall plain_component l
            /\ (p = "/" +:+ PyStr.join "/" l \/ p = "//" +:+ PyStr.join "/" l).
Proof.
  intros Hcwd H.
  destruct (resolve_mod_dest_is_normpath _ _ _ _ Hcwd H) as (q & Hq & ->).
  apply normpath_absolute_shape, Hq.
Qed.

Lemma resolve_mod_dest_no_dotdot_witness :
  exists l, Forall plain_component l
            /\ ("/home/etc" = "/" +:+ PyStr.join "/" l
                \/ "/home/etc" = "//" +:+ PyStr.join "/" l).
Proof.
  exact (resolve_mod_dest_no_dotdot "/home/u/work"
           (mk_mod "fa" (Some "../../etc")) VNone "/home/etc" eq_refl eq_refl).
Defined.

(** ** The archive that [cmd_upload] sends *)






(** ** Fetch and package agree on the destination *)


